(** * examples/python_ffi_example.py

    A shallow embedding of the routing functions [call_via_http] and
    [call_service] and of the timing harness [benchmark_ffi_vs_http].

    The script talks to four collaborators that are not part of it: the
    PyO3 module [dist_agent_lang], the [requests] / [json] libraries, the
    HTTP server behind [localhost:3000] and the wall clock.  They are
    gathered in a record [Env]; each of them acts on an opaque world [W]
    and either returns a value or raises a Python exception. *)

From Stdlib Require Import String Ascii List ZArith Floats Bool Lia.
From Stdlib Require Import DecimalString.
Import ListNotations.
Local Open Scope string_scope.
Local Open Scope list_scope.
Set Warnings "-register-all".

(** ** Python values *)

(** The Python objects that travel through the script: the arguments of a
    service call, the results of the native calls and decoded JSON. *)
Inductive value : Type :=
| VNone
| VBool (b : bool)
| VInt (z : Z)
| VStr (s : string)
| VBytes (s : string)
| VList (l : list value)
| VDict (l : list (string * value)).

(** ** Python exceptions *)

(** An exception is represented by the method resolution order of its
    class, most specific class first; [isinstance] is what an [except]
    clause tests. *)
Record exn : Type := mk_exn { exn_mro : list string }.

Definition isinstance (e : exn) (cls : string) : bool :=
  existsb (String.eqb cls) (exn_mro e).

Definition ImportError : exn :=
  mk_exn ["ImportError"; "Exception"; "BaseException"].
Definition ModuleNotFoundError : exn :=
  mk_exn ["ModuleNotFoundError"; "ImportError"; "Exception"; "BaseException"].
Definition AttributeError : exn :=
  mk_exn ["AttributeError"; "Exception"; "BaseException"].
Definition NameError : exn :=
  mk_exn ["NameError"; "Exception"; "BaseException"].
Definition ZeroDivisionError : exn :=
  mk_exn ["ZeroDivisionError"; "ArithmeticError"; "Exception"; "BaseException"].
Definition TypeError : exn :=
  mk_exn ["TypeError"; "Exception"; "BaseException"].
Definition RuntimeError : exn :=
  mk_exn ["RuntimeError"; "Exception"; "BaseException"].
Definition JSONDecodeError : exn :=
  mk_exn ["JSONDecodeError"; "InvalidJSONError"; "RequestException"; "OSError";
          "ValueError"; "Exception"; "BaseException"].

Inductive outcome (A : Type) : Type :=
| Ok (a : A)
| Raise (e : exn).
Arguments Ok {A} a.
Arguments Raise {A} e.

(** ** Python floats *)

(** The operations the script applies to the readings of [time.time()].
    [float_of_int] is the conversion of the left operand of [int / float];
    [float_is_zero] is the test [x == 0.0], which decides both whether a
    true division raises and whether [if x:] is taken. *)
Class PyFloat (F : Type) : Type := {
  float_of_int : Z -> F;
  float_sub : F -> F -> F;
  float_div : F -> F -> F;
  float_is_zero : F -> bool
}.

(** Python's [float] is IEEE 754 binary64.  The conversion is exact for the
    integers below [2^53] in magnitude; the script converts 10000 only. *)
#[export] Instance binary64 : PyFloat float := {
  float_of_int z :=
    match z with
    | Z0 => 0%float
    | Zpos _ => PrimFloat.of_uint63 (Uint63.of_Z z)
    | Zneg _ => PrimFloat.opp (PrimFloat.of_uint63 (Uint63.of_Z (Z.opp z)))
    end;
  float_sub := PrimFloat.sub;
  float_div := PrimFloat.div;
  float_is_zero x := PrimFloat.eqb x 0%float
}.

(** [a / b] on floats: [ZeroDivisionError] when the divisor is zero. *)
Definition truediv {F} `{PyFloat F} (a b : F) : outcome F :=
  if float_is_zero b then Raise ZeroDivisionError else Ok (float_div a b).

(** Truth value of a float, as tested by [if ffi_time:]. *)
Definition truthy {F} `{PyFloat F} (x : F) : bool := negb (float_is_zero x).

(** ** Effects: state and exceptions *)

Definition M (S A : Type) : Type := S -> outcome A * S.

Definition ret {S A} (a : A) : M S A := fun s => (Ok a, s).

Definition raise {S A} (e : exn) : M S A := fun s => (Raise e, s).

Definition bind {S A B} (m : M S A) (k : A -> M S B) : M S B :=
  fun s =>
    match m s with
    | (Ok a, s') => k a s'
    | (Raise e, s') => (Raise e, s')
    end.

Declare Scope py_scope.
Delimit Scope py_scope with py.
Notation "x <- m ;; k" := (bind m (fun x => k))
  (at level 61, m at next level, right associativity) : py_scope.
Notation "m ;; k" := (bind m (fun _ => k))
  (at level 61, right associativity) : py_scope.
Local Open Scope py_scope.

(** [try: body  except <classes>: handler].  The effects the body had
    before it raised stay. *)
Definition try_except {S A} (body : M S A) (matches : exn -> bool)
    (handler : M S A) : M S A :=
  fun s =>
    match body s with
    | (Ok a, s') => (Ok a, s')
    | (Raise e, s') => if matches e then handler s' else (Raise e, s')
    end.

(** [for _ in range(n): body]. *)
Fixpoint for_range {S A} (n : nat) (body : M S A) : M S unit :=
  match n with
  | O => ret tt
  | S k => body ;; for_range k body
  end.

(** Reading a global name that may be unbound, and an attribute that may be
    missing. *)
Definition global_name {S A} (binding : option A) : M S A :=
  match binding with
  | Some a => ret a
  | None => raise NameError
  end.

Definition getattr {S A} (attribute : option A) : M S A :=
  match attribute with
  | Some a => ret a
  | None => raise AttributeError
  end.

Definition of_outcome {S A} (r : outcome A) : M S A := fun s => (r, s).

(** ** The collaborators *)

(** The object built by [dist_agent_lang.DistAgentLangRuntime()]. *)
Record Runtime (W : Type) : Type := mk_Runtime {
  call_function :
    option (string -> string -> value -> W -> outcome value * W)
}.
Arguments mk_Runtime {W} _.
Arguments call_function {W} _.

(** The module object [dist_agent_lang]. *)
Record NativeModule (W : Type) : Type := mk_NativeModule {
  DistAgentLangRuntime : option (W -> outcome (Runtime W) * W);
  hash_data : option (string -> string -> W -> outcome value * W)
}.
Arguments mk_NativeModule {W} _ _.
Arguments DistAgentLangRuntime {W} _.
Arguments hash_data {W} _.

(** A [requests.Response]: what [call_via_http] can observe of it. *)
Record Response : Type := mk_Response {
  status_code : Z;
  text : string
}.

(** [dist_agent_lang] is the global bound by [import dist_agent_lang] on
    line 9: [None] when that import raised [ImportError] (lines 40-41 print
    a message and leave the name unbound).  [requests.post(url, json=args)]
    serialises [args] with [json_dumps] and hands the body to
    [requests_send]; [response.json()] is [json_loads] of the body. *)
Record Env (W F : Type) : Type := mk_Env {
  dist_agent_lang : option (NativeModule W);
  json_dumps : value -> outcome string;
  requests_send : string -> string -> W -> outcome Response * W;
  json_loads : string -> outcome value;
  time_time : W -> F * W
}.
Arguments mk_Env {W F} _ _ _ _ _.
Arguments dist_agent_lang {W F} _.
Arguments json_dumps {W F} _ _.
Arguments requests_send {W F} _ _ _ _.
Arguments json_loads {W F} _ _.
Arguments time_time {W F} _ _.

(** ** The state of a run *)

(** What [benchmark_ffi_vs_http] prints.  The model keeps the numbers that
    the format specifications [.4f], [.0f] and [.1f] render. *)
Inductive line (F : Type) : Type :=
| FFI_line (ffi_time ops_per_sec : F)
| FFI_not_available
| HTTP_line (http_time ops_per_sec : F)
| Speedup_line (speedup : F).
Arguments FFI_line {F} _ _.
Arguments FFI_not_available {F}.
Arguments HTTP_line {F} _ _.
Arguments Speedup_line {F} _.

(** [http_calls] records every [requests.post] the script issues, oldest
    first, with its URL and its [json=] argument. *)
Record St (W F : Type) : Type := mk_St {
  world : W;
  http_calls : list (string * value);
  stdout : list (line F)
}.
Arguments mk_St {W F} _ _ _.
Arguments world {W F} _.
Arguments http_calls {W F} _.
Arguments stdout {W F} _.

Section Script.
Context {W F : Type} `{PyFloat F}.

Let State : Type := St W F.

(** A call into a collaborator. *)
Definition extern {A} (f : W -> outcome A * W) : M State A :=
  fun st =>
    let (r, w) := f (world st) in
    (r, mk_St w (http_calls st) (stdout st)).

Definition add_line (st : State) (l : line F) : State :=
  mk_St (world st) (http_calls st) (stdout st ++ [l]).

Definition print (l : line F) : M State unit :=
  fun st => (Ok tt, add_line st l).

(** Reading the wall clock: [time.time()]. *)
Definition clock (env : Env W F) : M State F :=
  fun st =>
    let (t, w) := time_time env (world st) in
    (Ok t, mk_St w (http_calls st) (stdout st)).

Definition record_http_call (url : string) (json : value) : M State unit :=
  fun st =>
    (Ok tt, mk_St (world st) (http_calls st ++ [(url, json)]) (stdout st)).

(** The body [requests] prepares for [json=args]: the serialised argument,
    and no body at all when the argument is [None]. *)
Definition request_body (env : Env W F) (json : value) : outcome string :=
  match json with
  | VNone => Ok EmptyString
  | _ => json_dumps env json
  end.

(** [requests.post(url, json=args)]. *)
Definition requests_post (env : Env W F) (url : string) (json : value)
    : M State Response :=
  record_http_call url json ;;
  body <- of_outcome (request_body env json) ;;
  extern (requests_send env url body).

(** [response.json()]. *)
Definition response_json (env : Env W F) (response : Response)
    : M State value :=
  of_outcome (json_loads env (text response)).

(** Line 49: [f"http://localhost:3000/api/{service_name}/{function_name}"]. *)
Definition api_url (service_name function_name : string) : string :=
  ("http://localhost:3000/api/" ++ service_name ++ "/" ++ function_name)%string.

(** Lines 47-51. *)
Definition call_via_http (env : Env W F)
    (service_name function_name : string) (args : value) : M State value :=
  let url := api_url service_name function_name in
  response <- requests_post env url args ;;
  response_json env response.

(** Line 58: [dist_agent_lang.DistAgentLangRuntime()]. *)
Definition new_runtime (env : Env W F) : M State (Runtime W) :=
  module <- global_name (dist_agent_lang env) ;;
  constructor <- getattr (DistAgentLangRuntime module) ;;
  extern constructor.

(** Line 59: [runtime.call_function(service_name, function_name, args)]. *)
Definition runtime_call_function (runtime : Runtime W)
    (service_name function_name : string) (args : value) : M State value :=
  method <- getattr (call_function runtime) ;;
  extern (method service_name function_name args).

(** Lines 58-59, the body of the [try] block up to its [return]. *)
Definition ffi_call (env : Env W F)
    (service_name function_name : string) (args : value) : M State value :=
  runtime <- new_runtime env ;;
  runtime_call_function runtime service_name function_name args.

(** The classes named by [except (ImportError, AttributeError)]. *)
Definition ImportError_or_AttributeError (e : exn) : bool :=
  isinstance e "ImportError" || isinstance e "AttributeError".

(** Lines 54-64.  The [try] block either returns ([Some]) or is left by
    [pass] ([None]); in the second case, and when [prefer_ffi] is false,
    control reaches line 64. *)
Definition call_service (env : Env W F)
    (service_name function_name : string) (args : value)
    (prefer_ffi : bool) : M State value :=
  returned <-
    (if prefer_ffi then
       try_except
         (result <- ffi_call env service_name function_name args ;;
          ret (Some result))
         ImportError_or_AttributeError
         (ret None)
     else ret None) ;;
  match returned with
  | Some result => ret result
  | None => call_via_http env service_name function_name args
  end.

(** [b * n] on bytes, and [bytes.decode()] on ASCII data, which keeps the
    characters. *)
Fixpoint bytes_mul (b : string) (n : nat) : string :=
  match n with
  | O => EmptyString
  | S k => (b ++ bytes_mul b k)%string
  end.

Definition decode (b : string) : string := b.

(** Line 78: [dist_agent_lang.hash_data(data, "SHA256")]. *)
Definition ffi_iteration (env : Env W F) (data : string) : M State value :=
  module <- global_name (dist_agent_lang env) ;;
  function <- getattr (hash_data module) ;;
  extern (function data "SHA256").

(** Line 88: [call_via_http("CryptoService", "hash_data", [data.decode()])]. *)
Definition http_iteration (env : Env W F) (data : string) : M State value :=
  call_via_http env "CryptoService" "hash_data" (VList [VStr (decode data)]).

(** Lines 75-83; the result is the value [ffi_time] has afterwards. *)
Definition ffi_benchmark (env : Env W F) (iterations : Z) (data : string)
    : M State (option F) :=
  try_except
    (start <- clock env ;;
     for_range (Z.to_nat iterations) (ffi_iteration env data) ;;
     stop <- clock env ;;
     let ffi_time := float_sub stop start in
     ops <- of_outcome (truediv (float_of_int iterations) ffi_time) ;;
     print (FFI_line ffi_time ops) ;;
     ret (Some ffi_time))
    (fun e => isinstance e "ImportError")
    (print FFI_not_available ;;
     ret None).

(** Lines 86-90; the result is [http_time]. *)
Definition http_benchmark (env : Env W F) (iterations : Z) (data : string)
    : M State F :=
  start <- clock env ;;
  for_range (Z.to_nat iterations) (http_iteration env data) ;;
  stop <- clock env ;;
  let http_time := float_sub stop start in
  ops <- of_outcome (truediv (float_of_int iterations) http_time) ;;
  print (HTTP_line http_time ops) ;;
  ret http_time.

(** Lines 92-94: [None] is false, a float is true unless it is zero. *)
Definition report_speedup (ffi_time : option F) (http_time : F)
    : M State unit :=
  match ffi_time with
  | Some ffi_time =>
      if truthy ffi_time then
        speedup <- of_outcome (truediv http_time ffi_time) ;;
        print (Speedup_line speedup)
      else ret tt
  | None => ret tt
  end.

(** The body of [benchmark_ffi_vs_http] for given values of its locals
    [iterations] and [data]. *)
Definition benchmark (env : Env W F) (iterations : Z) (data : string)
    : M State unit :=
  ffi_time <- ffi_benchmark env iterations data ;;
  http_time <- http_benchmark env iterations data ;;
  report_speedup ffi_time http_time.

(** Lines 69-94. *)
Definition benchmark_ffi_vs_http (env : Env W F) : M State unit :=
  let data := bytes_mul "test_data" 1000 in
  let iterations := 10000%Z in
  benchmark env iterations data.

End Script.

(** ** The vocabulary of the specification *)

Section Vocabulary.
Context {W F : Type} `{PyFloat F}.

(** Section 4.1 of the specification names two failures of a strategy.
    For the native strategy, a failure to obtain the runtime handle (line
    58) is the first, a failure of the call on that handle (line 59) the
    second. *)
Inductive strategy_error : Type :=
| StrategyUnavailable (e : exn)
| StrategyExecutionError (e : exn).

Definition error_exn (err : strategy_error) : exn :=
  match err with
  | StrategyUnavailable e => e
  | StrategyExecutionError e => e
  end.

Definition native_strategy (env : Env W F)
    (service_name function_name : string) (args : value) (st : St W F)
    : (value + strategy_error) * St W F :=
  match new_runtime env st with
  | (Raise e, st') => (inr (StrategyUnavailable e), st')
  | (Ok runtime, st') =>
      match runtime_call_function runtime service_name function_name args st'
      with
      | (Ok result, st'') => (inl result, st'')
      | (Raise e, st'') => (inr (StrategyExecutionError e), st'')
      end
  end.

(** The dispatcher as section 4.2 words it (claim C1): unavailability of
    the native strategy hands the same three arguments to the network
    strategy, an execution error reaches the caller and no request is made. *)
Definition dispatch_as_specified (env : Env W F)
    (service_name function_name : string) (args : value) (st : St W F)
    : Prop :=
  match native_strategy env service_name function_name args st with
  | (inl _, _) => True
  | (inr (StrategyUnavailable _), st') =>
      call_service env service_name function_name args true st =
      call_via_http env service_name function_name args st'
  | (inr (StrategyExecutionError e), st') =>
      call_service env service_name function_name args true st = (Raise e, st')
      /\ http_calls st' = http_calls st
  end.

(** A status code in the 2xx range. *)
Definition is_success (status : Z) : bool :=
  (200 <=? status)%Z && (status <? 300)%Z.

(** The network strategy as section 4.1 words it (claim C4): a response
    whose status is not a success, or whose body does not decode, makes the
    call fail. *)
Definition network_as_specified (env : Env W F)
    (service_name function_name : string) (args : value) (st : St W F)
    : Prop :=
  forall body response w,
    request_body env args = Ok body ->
    requests_send env (api_url service_name function_name) body (world st) =
      (Ok response, w) ->
    is_success (status_code response) = false
    \/ (exists e, json_loads env (text response) = Raise e) ->
    exists e,
      fst (call_via_http env service_name function_name args st) = Raise e.

(** The guard of section 3 (claim C8): the computation of a throughput
    never ends in a division error. *)
Definition throughput_is_guarded (env : Env W F) (st : St W F) : Prop :=
  forall e,
    fst (benchmark_ffi_vs_http env st) = Raise e ->
    isinstance e "ZeroDivisionError" = false.

Definition network_sample_reported (st : St W F) : Prop :=
  exists http_time ops, In (HTTP_line http_time ops) (stdout st).

(** The isolation of section 7 (claim C9): when the FFI measurement fails
    and the HTTP measurement, run from there, would succeed, the report
    has the network sample. *)
Definition failures_are_isolated (env : Env W F) (st : St W F) : Prop :=
  forall e s2 http_time s3,
    ffi_benchmark env 10000 (bytes_mul "test_data" 1000) st = (Raise e, s2) ->
    http_benchmark env 10000 (bytes_mul "test_data" 1000) s2
      = (Ok http_time, s3) ->
    network_sample_reported (snd (benchmark_ffi_vs_http env st)).

End Vocabulary.

(** ** The JSON codec of the [requests] library

    [PyJson.dumps] is [json.dumps] with the default separators and
    [ensure_ascii], which is how [requests] serialises a [json=] argument;
    [PyJson.loads] is the decoder behind [response.json()].  Both are given
    on a fragment: [None], booleans, integers, strings of code points below
    256, lists, and dictionaries with string keys; a body with a fraction,
    an exponent or a [\u] escape above 255 is outside of it. *)
Module PyJson.

Local Open Scope char_scope.

(** The double quote and the backslash. *)
Definition dquote : ascii := ascii_of_nat 34.
Definition backslash : ascii := ascii_of_nat 92.

Definition hex_digit (n : nat) : ascii :=
  nth n ["0"; "1"; "2"; "3"; "4"; "5"; "6"; "7"; "8"; "9";
         "a"; "b"; "c"; "d"; "e"; "f"] "0".

Definition escape_char (c : ascii) : string :=
  let n := nat_of_ascii c in
  if Nat.eqb n 34 then String backslash (String dquote EmptyString)
  else if Nat.eqb n 92 then String backslash (String backslash EmptyString)
  else if Nat.eqb n 10 then String backslash (String "n" EmptyString)
  else if Nat.eqb n 13 then String backslash (String "r" EmptyString)
  else if Nat.eqb n 9 then String backslash (String "t" EmptyString)
  else if Nat.eqb n 8 then String backslash (String "b" EmptyString)
  else if Nat.eqb n 12 then String backslash (String "f" EmptyString)
  else if (Nat.ltb n 32 || Nat.ltb 126 n)%bool then
    String backslash (String "u" (String "0" (String "0"
      (String (hex_digit (Nat.div n 16))
         (String (hex_digit (Nat.modulo n 16)) EmptyString)))))
  else String c EmptyString.

Fixpoint escape (s : string) : string :=
  match s with
  | EmptyString => EmptyString
  | String c rest => (escape_char c ++ escape rest)%string
  end.

Definition quote (s : string) : string :=
  (String dquote (escape s) ++ String dquote EmptyString)%string.

Definition dumps_int (z : Z) : string := NilZero.string_of_int (Z.to_int z).

(** [None] stands for the [TypeError] of a value that is not serialisable. *)
Fixpoint dumps_value (v : value) : option string :=
  match v with
  | VNone => Some "null"%string
  | VBool true => Some "true"%string
  | VBool false => Some "false"%string
  | VInt z => Some (dumps_int z)
  | VStr s => Some (quote s)
  | VBytes _ => None
  | VList l =>
      let fix items (l : list value) : option string :=
        match l with
        | [] => Some EmptyString
        | [v] => dumps_value v
        | v :: rest =>
            match dumps_value v, items rest with
            | Some a, Some b => Some (a ++ ", " ++ b)%string
            | _, _ => None
            end
        end in
      match items l with
      | Some body => Some ("[" ++ body ++ "]")%string
      | None => None
      end
  | VDict l =>
      let fix members (l : list (string * value)) : option string :=
        match l with
        | [] => Some EmptyString
        | [(k, v)] =>
            match dumps_value v with
            | Some a => Some (quote k ++ ": " ++ a)%string
            | None => None
            end
        | (k, v) :: rest =>
            match dumps_value v, members rest with
            | Some a, Some b => Some (quote k ++ ": " ++ a ++ ", " ++ b)%string
            | _, _ => None
            end
        end in
      match members l with
      | Some body => Some ("{" ++ body ++ "}")%string
      | None => None
      end
  end.

Definition dumps (v : value) : outcome string :=
  match dumps_value v with
  | Some s => Ok s
  | None => Raise TypeError
  end.

Definition is_ws (c : ascii) : bool :=
  let n := nat_of_ascii c in
  (Nat.eqb n 32 || Nat.eqb n 9 || Nat.eqb n 10 || Nat.eqb n 13)%bool.

Fixpoint skip_ws (s : string) : string :=
  match s with
  | String c rest => if is_ws c then skip_ws rest else s
  | EmptyString => s
  end.

Definition digit_of (c : ascii) : option Z :=
  let n := nat_of_ascii c in
  if (Nat.leb 48 n && Nat.leb n 57)%bool then Some (Z.of_nat (n - 48)) else None.

Definition hex_of (c : ascii) : option nat :=
  let n := nat_of_ascii c in
  if (Nat.leb 48 n && Nat.leb n 57)%bool then Some (n - 48)%nat
  else if (Nat.leb 97 n && Nat.leb n 102)%bool then Some (n - 87)%nat
  else if (Nat.leb 65 n && Nat.leb n 70)%bool then Some (n - 55)%nat
  else None.

(** The character an escape sequence of two characters stands for. *)
Definition escaped (e : ascii) : option ascii :=
  if Ascii.eqb e dquote then Some dquote
  else if Ascii.eqb e backslash then Some backslash
  else
    match e with
    | "/" => Some "/"
    | "n" => Some (ascii_of_nat 10)
    | "r" => Some (ascii_of_nat 13)
    | "t" => Some (ascii_of_nat 9)
    | "b" => Some (ascii_of_nat 8)
    | "f" => Some (ascii_of_nat 12)
    | _ => None
    end.

Definition prepend (c : ascii) (r : option (string * string))
    : option (string * string) :=
  match r with
  | Some (str, rest) => Some (String c str, rest)
  | None => None
  end.

(** The rest of a string literal, after its opening quote. *)
Fixpoint scan_string (s : string) : option (string * string) :=
  match s with
  | EmptyString => None
  | String c rest =>
      if Ascii.eqb c dquote then Some (EmptyString, rest)
      else if Ascii.eqb c backslash then
        match rest with
        | String "u" (String a (String b (String c' (String d rest')))) =>
            match hex_of a, hex_of b, hex_of c', hex_of d with
            | Some 0%nat, Some 0%nat, Some h, Some l =>
                prepend (ascii_of_nat (16 * h + l)) (scan_string rest')
            | _, _, _, _ => None
            end
        | String e rest' =>
            match escaped e with
            | Some c' => prepend c' (scan_string rest')
            | None => None
            end
        | EmptyString => None
        end
      else if Nat.ltb (nat_of_ascii c) 32 then None
      else prepend c (scan_string rest)
  end.

(** The digits of an integer literal, most significant first. *)
Fixpoint scan_digits (acc : Z) (s : string) : Z * string :=
  match s with
  | String c rest =>
      match digit_of c with
      | Some d => scan_digits (10 * acc + d) rest
      | None => (acc, s)
      end
  | EmptyString => (acc, s)
  end.

(** An integer literal without its sign: no leading zero, and neither a
    fraction nor an exponent after it. *)
Definition scan_natural (s : string) : option (Z * string) :=
  match s with
  | String c rest =>
      match digit_of c with
      | Some d =>
          let (n, rest') :=
            if Z.eqb d 0 then (0%Z, rest) else scan_digits d rest in
          match rest' with
          | String "." _ | String "e" _ | String "E" _ => None
          | _ => Some (n, rest')
          end
      | None => None
      end
  | EmptyString => None
  end.

Definition expect (keyword : string) (v : value) (s : string)
    : option (value * string) :=
  if String.prefix keyword s
  then Some (v, substring (String.length keyword)
                          (String.length s - String.length keyword) s)
  else None.

(** A later duplicate of a key replaces the earlier one, as in a [dict]. *)
Fixpoint dict_set (k : string) (v : value) (d : list (string * value))
    : list (string * value) :=
  match d with
  | [] => [(k, v)]
  | (k', v') :: rest =>
      if String.eqb k k' then (k', v) :: rest else (k', v') :: dict_set k v rest
  end.

Fixpoint scan_value (fuel : nat) (s : string) {struct fuel}
    : option (value * string) :=
  match fuel with
  | O => None
  | S fuel' =>
      match skip_ws s with
      | EmptyString => None
      | String c rest as s' =>
          if Ascii.eqb c dquote then
            match scan_string rest with
            | Some (str, rest') => Some (VStr str, rest')
            | None => None
            end
          else
            match c with
            | "n" => expect "null" VNone s'
            | "t" => expect "true" (VBool true) s'
            | "f" => expect "false" (VBool false) s'
            | "-" =>
                match scan_natural rest with
                | Some (n, rest') => Some (VInt (- n), rest')
                | None => None
                end
            | "[" =>
                match skip_ws rest with
                | String "]" rest' => Some (VList [], rest')
                | _ =>
                    match scan_items fuel' rest with
                    | Some (l, rest') => Some (VList l, rest')
                    | None => None
                    end
                end
            | "{" =>
                match skip_ws rest with
                | String "}" rest' => Some (VDict [], rest')
                | _ =>
                    match scan_members fuel' rest with
                    | Some (l, rest') =>
                        Some (VDict (fold_left
                                       (fun d kv => dict_set (fst kv) (snd kv) d)
                                       l []),
                              rest')
                    | None => None
                    end
                end
            | _ =>
                match scan_natural s' with
                | Some (n, rest') => Some (VInt n, rest')
                | None => None
                end
            end
      end
  end

with scan_items (fuel : nat) (s : string) {struct fuel}
    : option (list value * string) :=
  match fuel with
  | O => None
  | S fuel' =>
      match scan_value fuel' s with
      | Some (v, rest) =>
          match skip_ws rest with
          | String "]" rest' => Some ([v], rest')
          | String "," rest' =>
              match scan_items fuel' rest' with
              | Some (l, rest'') => Some (v :: l, rest'')
              | None => None
              end
          | _ => None
          end
      | None => None
      end
  end

with scan_members (fuel : nat) (s : string) {struct fuel}
    : option (list (string * value) * string) :=
  match fuel with
  | O => None
  | S fuel' =>
      match skip_ws s with
      | String c rest =>
          if Ascii.eqb c dquote then
            match scan_string rest with
            | Some (k, rest') =>
                match skip_ws rest' with
                | String ":" rest'' =>
                    match scan_value fuel' rest'' with
                    | Some (v, rest3) =>
                        match skip_ws rest3 with
                        | String "}" rest4 => Some ([(k, v)], rest4)
                        | String "," rest4 =>
                            match scan_members fuel' rest4 with
                            | Some (l, rest5) => Some ((k, v) :: l, rest5)
                            | None => None
                            end
                        | _ => None
                        end
                    | None => None
                    end
                | _ => None
                end
            | None => None
            end
          else None
      | EmptyString => None
      end
  end.

Definition loads (body : string) : outcome value :=
  match scan_value (2 * String.length body + 2) body with
  | Some (v, rest) =>
      match skip_ws rest with
      | EmptyString => Ok v
      | _ => Raise JSONDecodeError
      end
  | None => Raise JSONDecodeError
  end.

End PyJson.

(** The text [json.dumps] puts between the brackets of a list of strings,
    and what follows one of its items. *)
Fixpoint join_strings (l : list string) : string :=
  match l with
  | [] => EmptyString
  | [s] => PyJson.quote s
  | s :: rest => (PyJson.quote s ++ ", " ++ join_strings rest)%string
  end.

Definition after_item (l : list string) : string :=
  match l with
  | [] => EmptyString
  | _ :: _ => (", " ++ join_strings l)%string
  end.

(** ** The script as a program

    Lines 8-41 run when the file is loaded, lines 96-98 when it is run as
    a program.  The imports of [requests], [json] and [time] on lines 44,
    45 and 67 are taken to succeed: these libraries are the collaborators
    of [Env]. *)

(** What [import dist_agent_lang] binds: the module object with the two
    functions that only lines 24 and 29 use. *)
Record CryptoModule (W : Type) : Type := mk_CryptoModule {
  native_part : NativeModule W;
  sign_data : option (string -> string -> W -> outcome value * W);
  verify_signature :
    option (string -> value -> string -> W -> outcome value * W)
}.
Arguments mk_CryptoModule {W} _ _ _.
Arguments native_part {W} _.
Arguments sign_data {W} _.
Arguments verify_signature {W} _.

(** The lines the program prints, with the values its f-strings render. *)
Inductive script_line (F : Type) : Type :=
| Hash_line (hash_result : value)
| Signature_line (hex : string)
| Valid_line (is_valid : value)
| Batch_line (result : value)
| FFI_module_not_available
| Banner
| Benchmark_line (l : line F).
Arguments Hash_line {F} _.
Arguments Signature_line {F} _.
Arguments Valid_line {F} _.
Arguments Batch_line {F} _.
Arguments FFI_module_not_available {F}.
Arguments Banner {F}.
Arguments Benchmark_line {F} _.

(** The state while the file is loaded: the world and what was printed. *)
Record Console (W F : Type) : Type := mk_Console {
  console_world : W;
  console : list (script_line F)
}.
Arguments mk_Console {W F} _ _.
Arguments console_world {W F} _.
Arguments console {W F} _.

(** [bytes.hex()]: two lower-case hexadecimal digits per byte. *)
Fixpoint hex (b : string) : string :=
  match b with
  | EmptyString => EmptyString
  | String c rest =>
      String (PyJson.hex_digit (Nat.div (nat_of_ascii c) 16))
        (String (PyJson.hex_digit (Nat.modulo (nat_of_ascii c) 16)) (hex rest))
  end.

(** [signature.hex()]: among the values of the model only [bytes] has the
    method. *)
Definition bytes_hex (v : value) : outcome string :=
  match v with
  | VBytes b => Ok (hex b)
  | _ => Raise AttributeError
  end.

Section Program.
Context {W F : Type} `{PyFloat F}.

Definition console_extern {A} (f : W -> outcome A * W)
    : M (Console W F) A :=
  fun c =>
    let (r, w) := f (console_world c) in
    (r, mk_Console w (console c)).

Definition console_print (l : script_line F) : M (Console W F) unit :=
  fun c => (Ok tt, mk_Console (console_world c) (console c ++ [l])).

(** Lines 12-38, the [try] block after its [import]. *)
Definition example_calls (module : CryptoModule W) : M (Console W F) unit :=
  constructor <- getattr (DistAgentLangRuntime (native_part module)) ;;
  runtime <- console_extern constructor ;;
  let data := "Hello, World!" in
  hash_function <- getattr (hash_data (native_part module)) ;;
  hash_result <- console_extern (hash_function data "SHA256") ;;
  console_print (Hash_line hash_result) ;;
  let private_key := "your_private_key_here" in
  sign_function <- getattr (sign_data module) ;;
  signature <- console_extern (sign_function data private_key) ;;
  signature_hex <- of_outcome (bytes_hex signature) ;;
  console_print (Signature_line signature_hex) ;;
  let public_key := "your_public_key_here" in
  verify_function <- getattr (verify_signature module) ;;
  is_valid <- console_extern (verify_function data signature public_key) ;;
  console_print (Valid_line is_valid) ;;
  method <- getattr (call_function runtime) ;;
  result <- console_extern
              (method "CryptoService" "batch_hash"
                 (VList [VList [VStr "data1"; VStr "data2"; VStr "data3"]])) ;;
  console_print (Batch_line result).

(** Lines 8-41.  The result is the binding of the global
    [dist_agent_lang] afterwards: the [import] binds it when it succeeds,
    also when a later line of the block raises the [ImportError] that the
    handler catches. *)
Definition module_level (import : W -> outcome (CryptoModule W) * W)
    : M (Console W F) (option (NativeModule W)) :=
  fun c =>
    match console_extern import c with
    | (Raise e, c') =>
        if isinstance e "ImportError"
        then (console_print FFI_module_not_available ;; ret None) c'
        else (Raise e, c')
    | (Ok module, c') =>
        try_except
          (example_calls module ;; ret (Some (native_part module)))
          (fun e => isinstance e "ImportError")
          (console_print FFI_module_not_available ;;
           ret (Some (native_part module)))
          c'
    end.

(** The environment of the functions once the file is loaded. *)
Definition with_module (env : Env W F) (binding : option (NativeModule W))
    : Env W F :=
  mk_Env binding (json_dumps env) (requests_send env) (json_loads env)
    (time_time env).

(** Running the file as a program: lines 8-41, then lines 96-98.  The
    result is the outcome, everything printed, and the state the benchmark
    left. *)
Definition run_script (import : W -> outcome (CryptoModule W) * W)
    (env : Env W F) (w : W)
    : outcome unit * (list (script_line F) * St W F) :=
  match module_level import (mk_Console w []) with
  | (Raise e, c) => (Raise e, (console c, mk_St (console_world c) [] []))
  | (Ok binding, c) =>
      let (r, st) :=
        benchmark_ffi_vs_http (with_module env binding)
          (mk_St (console_world c) [] []) in
      (r, (console c ++ [Banner] ++ map Benchmark_line (stdout st), st))
  end.

End Program.

(** ** Sample environments

    The world of these environments is the list of the readings the clock
    has still to give; the native module and the server leave it alone. *)

Definition replay_clock {F : Type} `{PyFloat F} (w : list F) : F * list F :=
  match w with
  | t :: rest => (t, rest)
  | [] => (float_of_int 0, [])
  end.

(** A server that answers every request with the same status and body. *)
Definition fixed_server {W : Type} (status : Z) (body : string)
    : string -> string -> W -> outcome Response * W :=
  fun _ _ w => (Ok (mk_Response status body), w).

(** A server that sends the body of the request back. *)
Definition echo_server {W : Type}
    : string -> string -> W -> outcome Response * W :=
  fun _ body w => (Ok (mk_Response 200 body), w).

(** A module whose runtime answers every [call_function] with [called] and
    whose [hash_data] answers with [hashed]. *)
Definition native_module {W : Type} (called hashed : outcome value)
    : NativeModule W :=
  mk_NativeModule
    (Some (fun w =>
             (Ok (mk_Runtime (Some (fun _ _ _ w' => (called, w')))), w)))
    (Some (fun _ _ w => (hashed, w))).

Definition body_over_http : string :=
  ("[" ++ PyJson.quote "over http" ++ "]")%string.

Definition body_error : string :=
  ("{" ++ PyJson.quote "error" ++ ": " ++ PyJson.quote "boom" ++ "}")%string.

Definition body_abc : string :=
  ("[" ++ PyJson.quote "a" ++ ", " ++ PyJson.quote "b" ++ ", "
       ++ PyJson.quote "c" ++ "]")%string.

Definition sample_env {F : Type} `{PyFloat F}
    (module : option (NativeModule (list F))) (status : Z) (body : string)
    : Env (list F) F :=
  mk_Env module PyJson.dumps (fixed_server status body) PyJson.loads
    replay_clock.

(** [dist_agent_lang] is not installed. *)
Definition env_not_installed : Env (list float) float :=
  sample_env None 200 body_over_http.

(** The runtime exists and its [call_function] raises [AttributeError]. *)
Definition env_attribute_error : Env (list float) float :=
  sample_env (Some (native_module (Raise AttributeError) (Ok VNone)))
    200 body_over_http.

(** The native call succeeds. *)
Definition env_native_ok : Env (list float) float :=
  sample_env (Some (native_module (Ok (VStr "native")) (Ok VNone)))
    200 body_over_http.

(** The runtime object has no [call_function] attribute. *)
Definition env_no_method : Env (list float) float :=
  sample_env
    (Some (mk_NativeModule (Some (fun w => (Ok (mk_Runtime None), w))) None))
    200 body_over_http.

(** [hash_data] raises [RuntimeError]. *)
Definition env_hash_fails : Env (list float) float :=
  sample_env (Some (native_module (Ok VNone) (Raise RuntimeError)))
    200 body_over_http.

(** The server answers 500 with a JSON body. *)
Definition env_status_500 : Env (list float) float :=
  sample_env None 500 body_error.

(** The server answers 200 with a page that is not JSON. *)
Definition env_not_json : Env (list float) float :=
  sample_env None 200 "<html>Bad Gateway</html>".

(** An environment whose server echoes, with the codec of [requests]. *)
Definition echo_env {W F : Type} (module : option (NativeModule W))
    (clock : W -> F * W) : Env W F :=
  mk_Env module PyJson.dumps echo_server PyJson.loads clock.

Definition abc : value := VList [VStr "a"; VStr "b"; VStr "c"].

Definition start (readings : list float) : St (list float) float :=
  mk_St readings [] [].

(** The native call raises [AttributeError] and the server answers with a
    page that is not JSON. *)
Definition env_both_fail : Env (list float) float :=
  sample_env (Some (native_module (Raise AttributeError) (Ok VNone)))
    200 "<html>Bad Gateway</html>".

(** A name without the separator of the URL path. *)
Fixpoint no_slash (s : string) : bool :=
  match s with
  | EmptyString => true
  | String c rest => negb (Ascii.eqb c "/") && no_slash rest
  end.

(** A module whose [hash_data] and [verify_signature] answer and whose
    [sign_data] answers with [signed]. *)
Definition crypto_module {W : Type} (signed : outcome value)
    : CryptoModule W :=
  mk_CryptoModule
    (native_module (Ok (VStr "native")) (Ok (VStr "digest")))
    (Some (fun _ _ w => (signed, w)))
    (Some (fun _ _ _ w => (Ok (VBool true), w))).

(** A module without [sign_data]. *)
Definition module_without_sign {W : Type} : CryptoModule W :=
  mk_CryptoModule
    (native_module (Ok (VStr "native")) (Ok (VStr "digest")))
    None
    (Some (fun _ _ _ w => (Ok (VBool true), w))).

Definition import_raises {W : Type} (e : exn)
    : W -> outcome (CryptoModule W) * W :=
  fun w => (Raise e, w).

Definition import_gives {W : Type} (module : CryptoModule W)
    : W -> outcome (CryptoModule W) * W :=
  fun w => (Ok module, w).

(** The module is installed and has no [hash_data]. *)
Definition env_no_hash_data : Env (list float) float :=
  sample_env
    (Some (mk_NativeModule (Some (fun w => (Ok (mk_Runtime None), w))) None))
    200 body_over_http.

(** The payload of the benchmark, line 71. *)
Definition test_data : string := bytes_mul "test_data" 1000.

Definition sample_args : value :=
  VList [VList [VStr "data1"; VStr "data2"; VStr "data3"]].

(** ** Routing: [call_via_http] and [call_service] *)

Section Routing.
Context {W F : Type} `{PyFloat F}.
Implicit Types (env : Env W F) (st : St W F) (a : value).
Implicit Types (s f : string) (e : exn).

Lemma extern_frame {A} (g : W -> outcome A * W) st :
  http_calls (snd (extern (F := F) g st)) = http_calls st
  /\ stdout (snd (extern g st)) = stdout st.
Proof.
  unfold extern. destruct (g (world st)) as [r w]. split; reflexivity.
Qed.

(** Obtaining the runtime handle issues no request and prints nothing. *)
Lemma new_runtime_frame env st :
  http_calls (snd (new_runtime env st)) = http_calls st
  /\ stdout (snd (new_runtime env st)) = stdout st.
Proof.
  unfold new_runtime, bind, global_name, getattr, ret, raise.
  destruct (dist_agent_lang env) as [m|]; [|split; reflexivity].
  destruct (DistAgentLangRuntime m) as [c|]; [|split; reflexivity].
  apply extern_frame.
Qed.

Lemma runtime_call_function_frame (runtime : Runtime W) s f a st :
  http_calls (snd (runtime_call_function (F := F) runtime s f a st))
    = http_calls st
  /\ stdout (snd (runtime_call_function (F := F) runtime s f a st))
    = stdout st.
Proof.
  unfold runtime_call_function, bind, getattr, ret, raise.
  destruct (call_function runtime) as [c|]; [|split; reflexivity].
  apply extern_frame.
Qed.

(** [ffi_call] is [native_strategy] with the two failures merged. *)
Lemma ffi_call_native_strategy env s f a st :
  ffi_call env s f a st =
  match native_strategy env s f a st with
  | (inl v, st') => (Ok v, st')
  | (inr err, st') => (Raise (error_exn err), st')
  end.
Proof.
  unfold ffi_call, native_strategy, bind.
  destruct (new_runtime env st) as [[runtime|e] st1]; [|reflexivity].
  destruct (runtime_call_function runtime s f a st1) as [[v|e] st2];
    reflexivity.
Qed.

Lemma native_strategy_frame env s f a st :
  http_calls (snd (native_strategy env s f a st)) = http_calls st
  /\ stdout (snd (native_strategy env s f a st)) = stdout st.
Proof.
  unfold native_strategy.
  pose proof (new_runtime_frame env st) as [Hc Ho].
  destruct (new_runtime env st) as [[runtime|e] st1]; simpl in *;
    [|split; assumption].
  pose proof (runtime_call_function_frame runtime s f a st1) as [Hc' Ho'].
  destruct (runtime_call_function runtime s f a st1) as [[v|e] st2];
    simpl in *; split; congruence.
Qed.

Lemma ffi_call_frame env s f a st :
  http_calls (snd (ffi_call env s f a st)) = http_calls st
  /\ stdout (snd (ffi_call env s f a st)) = stdout st.
Proof.
  rewrite ffi_call_native_strategy.
  pose proof (native_strategy_frame env s f a st) as Hframe.
  destruct (native_strategy env s f a st) as [[v|err] st']; exact Hframe.
Qed.

(** An [except] clause catches the subclasses of the classes it names:
    [ModuleNotFoundError] is caught, [NameError] and [ZeroDivisionError]
    are not. *)
Lemma except_clause_classes :
  ImportError_or_AttributeError ModuleNotFoundError = true
  /\ ImportError_or_AttributeError AttributeError = true
  /\ ImportError_or_AttributeError NameError = false
  /\ ImportError_or_AttributeError ZeroDivisionError = false.
Proof. repeat split. Qed.

(** With [prefer_ffi=False] the call is [call_via_http]. *)
Lemma call_service_http_path env s f a st :
  call_service env s f a false st = call_via_http env s f a st.
Proof. reflexivity. Qed.

(** With [prefer_ffi=True] the [except] clause decides. *)
Lemma call_service_ffi_path env s f a st :
  call_service env s f a true st =
  match ffi_call env s f a st with
  | (Ok v, st') => (Ok v, st')
  | (Raise e, st') =>
      if ImportError_or_AttributeError e
      then call_via_http env s f a st'
      else (Raise e, st')
  end.
Proof.
  unfold call_service, bind, try_except, ret.
  destruct (ffi_call env s f a st) as [[v|e] st']; [reflexivity|].
  destruct (ImportError_or_AttributeError e); reflexivity.
Qed.

(** Every [call_via_http] issues exactly one request, to the URL built from
    the two names and with the arguments it was given; it prints nothing. *)
Lemma call_via_http_frame env s f a st :
  http_calls (snd (call_via_http env s f a st))
    = http_calls st ++ [(api_url s f, a)]
  /\ stdout (snd (call_via_http env s f a st)) = stdout st.
Proof.
  unfold call_via_http, requests_post, response_json, record_http_call,
    of_outcome, bind, extern; simpl.
  destruct (request_body env a) as [body|e]; simpl; [|split; reflexivity].
  destruct (requests_send env (api_url s f) body (world st)) as [[r|e] w];
    simpl; split; reflexivity.
Qed.

(** C3.  When the native strategy is available and its call succeeds,
    [call_service] with [prefer_ffi=True] returns the native result, and the
    network strategy is not invoked: no request is added to [http_calls]. *)
Theorem native_success_skips_network env s f a st v st' :
  native_strategy env s f a st = (inl v, st') ->
  call_service env s f a true st = (Ok v, st')
  /\ http_calls st' = http_calls st.
Proof.
  intros Hnative.
  pose proof (native_strategy_frame env s f a st) as [Hcalls _].
  rewrite call_service_ffi_path, ffi_call_native_strategy, Hnative.
  rewrite Hnative in Hcalls. split; [reflexivity | exact Hcalls].
Qed.

(** C1, amended.  On an environment where [dist_agent_lang] was imported,
    [call_service] with [prefer_ffi=True] runs the native strategy first.
    If it fails, at either stage, with an [ImportError] or an
    [AttributeError], the network strategy is invoked with the same three
    arguments in the state the native attempt left; if it fails with any
    other exception, that exception reaches the caller and no request is
    made. *)
Theorem call_service_fallback_rule env s f a st module :
  dist_agent_lang env = Some module ->
  match native_strategy env s f a st with
  | (inl v, st') => call_service env s f a true st = (Ok v, st')
  | (inr err, st') =>
      if ImportError_or_AttributeError (error_exn err)
      then call_service env s f a true st = call_via_http env s f a st'
      else call_service env s f a true st = (Raise (error_exn err), st')
           /\ http_calls st' = http_calls st
  end.
Proof.
  intros _.
  pose proof (native_strategy_frame env s f a st) as [Hcalls _].
  rewrite call_service_ffi_path, ffi_call_native_strategy.
  destruct (native_strategy env s f a st) as [[v|err] st']; [reflexivity|].
  destruct (ImportError_or_AttributeError (error_exn err));
    [reflexivity | split; [reflexivity | exact Hcalls]].
Qed.

(** C2, the code at the failing input.  When [dist_agent_lang] could not be
    imported the name is unbound: [call_service] with [prefer_ffi=True]
    raises [NameError] before any request, while with [prefer_ffi=False] it
    is [call_via_http]. *)
Theorem call_service_unbound_module env s f a st :
  dist_agent_lang env = None ->
  call_service env s f a true st = (Raise NameError, st)
  /\ call_service env s f a false st = call_via_http env s f a st.
Proof.
  intros Hmodule. split; [|reflexivity].
  rewrite call_service_ffi_path.
  unfold ffi_call, new_runtime, bind, global_name, raise.
  rewrite Hmodule. reflexivity.
Qed.

(** What does hold of the fallback: when the native attempt raises a caught
    exception and leaves the state as it found it, both values of
    [prefer_ffi] give the same outcome. *)
Lemma fallback_equivalence_when_caught env s f a st e :
  ffi_call env s f a st = (Raise e, st) ->
  ImportError_or_AttributeError e = true ->
  call_service env s f a true st = call_service env s f a false st.
Proof.
  intros Hffi Hcaught.
  rewrite call_service_ffi_path, Hffi, Hcaught. reflexivity.
Qed.

(** C10, the code on every exception of the native path and at the
    failing input.  The [except] clause of [call_service] routes to the
    network path every [ImportError] and every [AttributeError] of the
    native path, whether raised while the runtime is constructed or while
    the call is made, and in particular the [AttributeError] of a module
    without [DistAgentLangRuntime] or of a runtime without
    [call_function]; every other exception reaches the caller, and no
    request is made.  When the module could not be imported, the exception
    of the native path is not an [ImportError]: the name is unbound, line
    58 raises [NameError], which the clause does not catch, and
    [call_service] raises it instead of falling back. *)
Theorem call_service_except_clause env s f a st :
  (forall e st',
     ffi_call env s f a st = (Raise e, st') ->
     (isinstance e "ImportError" = true \/ isinstance e "AttributeError" = true ->
      call_service env s f a true st = call_via_http env s f a st')
     /\ (isinstance e "ImportError" = false ->
         isinstance e "AttributeError" = false ->
         call_service env s f a true st = (Raise e, st')
         /\ http_calls st' = http_calls st))
  /\ (forall module,
        dist_agent_lang env = Some module ->
        DistAgentLangRuntime module = None ->
        call_service env s f a true st = call_via_http env s f a st)
  /\ (forall runtime st',
        new_runtime env st = (Ok runtime, st') ->
        call_function runtime = None ->
        call_service env s f a true st = call_via_http env s f a st')
  /\ (dist_agent_lang env = None ->
      ffi_call env s f a st = (Raise NameError, st)
      /\ ImportError_or_AttributeError NameError = false
      /\ call_service env s f a true st = (Raise NameError, st)).
Proof.
  split; [|split; [|split]].
  - intros e st' Hffi.
    pose proof (ffi_call_frame env s f a st) as [Hcalls _].
    rewrite Hffi in Hcalls. simpl in Hcalls.
    rewrite call_service_ffi_path, Hffi.
    unfold ImportError_or_AttributeError. split.
    + intros [Hi | Ha]; rewrite ?Hi, ?Ha, ?orb_true_r; reflexivity.
    + intros Hi Ha. rewrite Hi, Ha. simpl. split; [reflexivity | exact Hcalls].
  - intros module Hmodule Hctor.
    rewrite call_service_ffi_path.
    unfold ffi_call, new_runtime, bind, global_name, getattr, ret, raise.
    rewrite Hmodule, Hctor. reflexivity.
  - intros runtime st' Hnew Hmethod.
    rewrite call_service_ffi_path.
    unfold ffi_call, bind. rewrite Hnew.
    unfold runtime_call_function, bind, getattr, raise.
    rewrite Hmethod. reflexivity.
  - intros Hmodule.
    assert (Hffi : ffi_call env s f a st = (Raise NameError, st)).
    { unfold ffi_call, new_runtime, bind, global_name, raise.
      rewrite Hmodule. reflexivity. }
    split; [exact Hffi|]. split; [reflexivity|].
    rewrite call_service_ffi_path, Hffi. reflexivity.
Qed.

(** C4, amended.  [call_via_http] does not look at the status of the
    response: once the request is answered, the outcome is the decoding of
    the body, a value when the body is JSON and the decoder's exception when
    it is not, whatever the status code.  Nothing catches an exception of
    the network path: [call_service] hands it to the caller both when it
    goes to the network directly and when it falls back to it. *)
Theorem call_via_http_ignores_status env s f a st body response w :
  request_body env a = Ok body ->
  requests_send env (api_url s f) body (world st) = (Ok response, w) ->
  call_via_http env s f a st =
    (json_loads env (text response),
     mk_St w (http_calls st ++ [(api_url s f, a)]) (stdout st))
  /\ call_service env s f a false st = call_via_http env s f a st
  /\ (forall e st',
        ffi_call env s f a st = (Raise e, st') ->
        ImportError_or_AttributeError e = true ->
        call_service env s f a true st = call_via_http env s f a st').
Proof.
  intros Hbody Hsend. split; [|split].
  - unfold call_via_http, requests_post, response_json, record_http_call,
      of_outcome, bind, extern; simpl.
    rewrite Hbody. simpl. rewrite Hsend. reflexivity.
  - reflexivity.
  - intros e st' Hffi Hcaught.
    rewrite call_service_ffi_path, Hffi, Hcaught. reflexivity.
Qed.

End Routing.

(** ** Routing on the sample environments *)

Lemma native_success_skips_network_witness :
  native_strategy env_native_ok "CryptoService" "batch_hash" sample_args
    (start []) = (inl (VStr "native"), start [])
  /\ call_service env_native_ok "CryptoService" "batch_hash" sample_args true
       (start []) = (Ok (VStr "native"), start [])
  /\ http_calls (start []) = [].
Proof.
  split; [reflexivity|].
  exact (native_success_skips_network env_native_ok "CryptoService"
           "batch_hash" sample_args (start []) (VStr "native") (start [])
           eq_refl).
Defined.

(** C1 as the specification states it fails: the runtime is there, its
    [call_function] raises [AttributeError], an execution error, and
    [call_service] answers with the result of the network strategy. *)
Lemma dispatch_masks_execution_error :
  ~ dispatch_as_specified env_attribute_error "CryptoService" "batch_hash"
      sample_args (start []).
Proof.
  intros Hspec. vm_compute in Hspec.
  destruct Hspec as [Hraise _]. discriminate Hraise.
Qed.

Lemma call_service_fallback_rule_witness :
  dist_agent_lang env_attribute_error
    = Some (native_module (Raise AttributeError) (Ok VNone))
  /\ call_service env_attribute_error "CryptoService" "batch_hash"
       sample_args true (start [])
     = call_via_http env_attribute_error "CryptoService" "batch_hash"
         sample_args (start []).
Proof.
  split; [reflexivity|].
  exact (call_service_fallback_rule env_attribute_error "CryptoService"
           "batch_hash" sample_args (start []) _ eq_refl).
Defined.

Lemma call_service_unbound_module_witness :
  dist_agent_lang env_not_installed = None
  /\ (call_service env_not_installed "CryptoService" "batch_hash" sample_args
        true (start []) = (Raise NameError, start [])
      /\ call_service env_not_installed "CryptoService" "batch_hash"
           sample_args false (start [])
         = call_via_http env_not_installed "CryptoService" "batch_hash"
             sample_args (start []))
  /\ fst (call_via_http env_not_installed "CryptoService" "batch_hash"
            sample_args (start []))
     = Ok (VList [VStr "over http"]).
Proof.
  split; [reflexivity|]. split; [|reflexivity].
  exact (call_service_unbound_module env_not_installed "CryptoService"
           "batch_hash" sample_args (start []) eq_refl).
Defined.

Lemma call_service_except_clause_witness :
  call_function (mk_Runtime (W := list float) None) = None
  /\ call_service env_no_method "CryptoService" "batch_hash" sample_args true
       (start [])
     = call_via_http env_no_method "CryptoService" "batch_hash" sample_args
         (start [])
  /\ dist_agent_lang env_not_installed = None
  /\ ffi_call env_not_installed "CryptoService" "batch_hash" sample_args
       (start []) = (Raise NameError, start [])
  /\ ImportError_or_AttributeError NameError = false
  /\ call_service env_not_installed "CryptoService" "batch_hash" sample_args
       true (start []) = (Raise NameError, start []).
Proof.
  split; [reflexivity|]. split; [|split; [reflexivity|]].
  - exact (proj1 (proj2 (proj2 (call_service_except_clause env_no_method
                                  "CryptoService" "batch_hash" sample_args
                                  (start []))))
             (mk_Runtime None) (start []) eq_refl eq_refl).
  - exact (proj2 (proj2 (proj2 (call_service_except_clause env_not_installed
                                  "CryptoService" "batch_hash" sample_args
                                  (start []))))
             eq_refl).
Defined.

(** C4 as the specification states it fails: the server answers 500 with a
    JSON body and [call_via_http] returns the decoded body. *)
Lemma status_500_is_returned :
  ~ network_as_specified env_status_500 "CryptoService" "batch_hash"
      sample_args (start []).
Proof.
  intros Hspec.
  destruct (Hspec _ _ _ eq_refl eq_refl (or_introl eq_refl)) as [e He].
  vm_compute in He. discriminate He.
Qed.

Lemma call_via_http_ignores_status_witness :
  status_code (mk_Response 500 body_error) = 500%Z
  /\ fst (call_via_http env_status_500 "CryptoService" "batch_hash"
            sample_args (start []))
     = Ok (VDict [("error", VStr "boom")])
  /\ fst (call_via_http env_not_json "CryptoService" "batch_hash"
            sample_args (start []))
     = Raise JSONDecodeError.
Proof.
  split; [reflexivity|]. split.
  - rewrite (proj1 (call_via_http_ignores_status env_status_500
                      "CryptoService" "batch_hash" sample_args (start [])
                      _ _ _ eq_refl eq_refl)).
    reflexivity.
  - rewrite (proj1 (call_via_http_ignores_status env_not_json
                      "CryptoService" "batch_hash" sample_args (start [])
                      _ _ _ eq_refl eq_refl)).
    reflexivity.
Defined.

(** ** The round trip through an echoing server *)

Lemma dumps_abc : PyJson.dumps abc = Ok body_abc.
Proof. reflexivity. Qed.

Lemma loads_abc : PyJson.loads body_abc = Ok abc.
Proof. vm_compute. reflexivity. Qed.

(** C5.  For all service and function names, [call_via_http] with the
    arguments [["a", "b", "c"]] against a server that echoes the body of the
    request posts one request to
    [http://localhost:3000/api/{service_name}/{function_name}] and returns a
    value equal to [["a", "b", "c"]]. *)
Theorem echo_round_trip {W F : Type} `{PyFloat F}
    (module : option (NativeModule W)) (clock : W -> F * W)
    (service_name function_name : string) (st : St W F) :
  call_via_http (echo_env module clock) service_name function_name abc st =
    (Ok abc,
     mk_St (world st)
       (http_calls st
          ++ [(("http://localhost:3000/api/" ++ service_name ++ "/"
                ++ function_name)%string, abc)])
       (stdout st)).
Proof.
  unfold call_via_http, requests_post, response_json, record_http_call,
    of_outcome, bind, extern.
  change (request_body (echo_env module clock) abc) with (PyJson.dumps abc).
  rewrite dumps_abc.
  change (json_loads (echo_env module clock)) with PyJson.loads.
  simpl. rewrite loads_abc. reflexivity.
Qed.

(** ** The timing harness *)

Section Benchmark.
Context {W F : Type} `{PyFloat F}.
Implicit Types (env : Env W F) (st : St W F) (data : string) (n : Z).

(** A property of the state that every iteration keeps is kept by the loop. *)
Lemma for_range_invariant {A} (P : St W F -> Prop) (body : M (St W F) A) :
  (forall st, P st -> P (snd (body st))) ->
  forall k st, P st -> P (snd (for_range k body st)).
Proof.
  intros Hbody k. induction k as [|k IH]; intros st HP; [exact HP|].
  simpl. unfold bind. specialize (Hbody st HP).
  destruct (body st) as [[v|e] st']; simpl in *; [apply IH|]; exact Hbody.
Qed.

(** A loop of at least one iteration whose first iteration raises. *)
Lemma for_range_first_raise {A} (body : M (St W F) A) k st e st' :
  k <> O ->
  body st = (Raise e, st') ->
  for_range k body st = (Raise e, st').
Proof.
  intros Hk Hbody. destruct k as [|k]; [contradiction|].
  simpl. unfold bind. rewrite Hbody. reflexivity.
Qed.

Lemma ffi_iteration_frame env data st :
  http_calls (snd (ffi_iteration env data st)) = http_calls st
  /\ stdout (snd (ffi_iteration env data st)) = stdout st.
Proof.
  unfold ffi_iteration, bind, global_name, getattr, ret, raise.
  destruct (dist_agent_lang env) as [m|]; [|split; reflexivity].
  destruct (hash_data m) as [g|]; [|split; reflexivity].
  apply extern_frame.
Qed.

(** The FFI loop issues no request and prints nothing. *)
Lemma ffi_loop_frame env data k st :
  http_calls (snd (for_range k (ffi_iteration env data) st)) = http_calls st
  /\ stdout (snd (for_range k (ffi_iteration env data) st)) = stdout st.
Proof.
  apply (for_range_invariant
           (fun s => http_calls s = http_calls st /\ stdout s = stdout st));
    [|split; reflexivity].
  intros s [Hc Ho]. destruct (ffi_iteration_frame env data s) as [Hc' Ho'].
  split; congruence.
Qed.

(** The HTTP loop prints nothing. *)
Lemma http_loop_frame env data k st :
  stdout (snd (for_range k (http_iteration env data) st)) = stdout st.
Proof.
  apply (for_range_invariant (fun s => stdout s = stdout st));
    [|reflexivity].
  intros s Ho. unfold http_iteration.
  destruct (call_via_http_frame env "CryptoService" "hash_data"
              (VList [VStr (decode data)]) s) as [_ Ho'].
  congruence.
Qed.

(** Lines 75-83, step by step. *)
Lemma ffi_benchmark_unfold env n data st :
  ffi_benchmark env n data st =
  let (t0, w1) := time_time env (world st) in
  match for_range (Z.to_nat n) (ffi_iteration env data)
          (mk_St w1 (http_calls st) (stdout st)) with
  | (Raise e, s2) =>
      if isinstance e "ImportError"
      then (Ok None, add_line s2 FFI_not_available)
      else (Raise e, s2)
  | (Ok _, s2) =>
      let (t1, w3) := time_time env (world s2) in
      let ffi_time := float_sub t1 t0 in
      if float_is_zero ffi_time
      then (Raise ZeroDivisionError, mk_St w3 (http_calls s2) (stdout s2))
      else (Ok (Some ffi_time),
            add_line (mk_St w3 (http_calls s2) (stdout s2))
              (FFI_line ffi_time (float_div (float_of_int n) ffi_time)))
  end.
Proof.
  unfold ffi_benchmark, try_except, bind, clock, of_outcome, print, ret,
    truediv.
  destruct (time_time env (world st)) as [t0 w1].
  destruct (for_range (Z.to_nat n) (ffi_iteration env data)
              (mk_St w1 (http_calls st) (stdout st))) as [[u|e] s2].
  - destruct (time_time env (world s2)) as [t1 w3].
    destruct (float_is_zero (float_sub t1 t0)); reflexivity.
  - destruct (isinstance e "ImportError"); reflexivity.
Qed.

(** Lines 86-90, step by step. *)
Lemma http_benchmark_unfold env n data st :
  http_benchmark env n data st =
  let (t0, w1) := time_time env (world st) in
  match for_range (Z.to_nat n) (http_iteration env data)
          (mk_St w1 (http_calls st) (stdout st)) with
  | (Raise e, s2) => (Raise e, s2)
  | (Ok _, s2) =>
      let (t1, w3) := time_time env (world s2) in
      let http_time := float_sub t1 t0 in
      if float_is_zero http_time
      then (Raise ZeroDivisionError, mk_St w3 (http_calls s2) (stdout s2))
      else (Ok http_time,
            add_line (mk_St w3 (http_calls s2) (stdout s2))
              (HTTP_line http_time (float_div (float_of_int n) http_time)))
  end.
Proof.
  unfold http_benchmark, bind, clock, of_outcome, print, ret, truediv.
  destruct (time_time env (world st)) as [t0 w1].
  destruct (for_range (Z.to_nat n) (http_iteration env data)
              (mk_St w1 (http_calls st) (stdout st))) as [[u|e] s2];
    [|reflexivity].
  destruct (time_time env (world s2)) as [t1 w3].
  destruct (float_is_zero (float_sub t1 t0)); reflexivity.
Qed.

(** What a completed [try] statement of lines 75-83 has printed. *)
Lemma ffi_benchmark_report env n data st r s1 :
  ffi_benchmark env n data st = (Ok r, s1) ->
  match r with
  | None => stdout s1 = stdout st ++ [FFI_not_available]
  | Some t =>
      float_is_zero t = false
      /\ stdout s1 = stdout st ++ [FFI_line t (float_div (float_of_int n) t)]
  end.
Proof.
  rewrite ffi_benchmark_unfold.
  destruct (time_time env (world st)) as [t0 w1].
  pose proof (ffi_loop_frame env data (Z.to_nat n)
                (mk_St w1 (http_calls st) (stdout st))) as [_ Hout].
  destruct (for_range (Z.to_nat n) (ffi_iteration env data)
              (mk_St w1 (http_calls st) (stdout st))) as [[u|e] s2];
    simpl in Hout.
  - destruct (time_time env (world s2)) as [t1 w3]. cbv zeta.
    destruct (float_is_zero (float_sub t1 t0)) eqn:Hzero; [intros Habs; discriminate Habs|].
    intros Hrun. injection Hrun as <- <-.
    split; [exact Hzero|]. unfold add_line. simpl. rewrite Hout. reflexivity.
  - destruct (isinstance e "ImportError"); [|intros Habs; discriminate Habs].
    intros Hrun. injection Hrun as <- <-.
    unfold add_line. simpl. rewrite Hout. reflexivity.
Qed.

(** What completed lines 86-90 have printed. *)
Lemma http_benchmark_report env n data st t s1 :
  http_benchmark env n data st = (Ok t, s1) ->
  float_is_zero t = false
  /\ stdout s1 = stdout st ++ [HTTP_line t (float_div (float_of_int n) t)].
Proof.
  rewrite http_benchmark_unfold.
  destruct (time_time env (world st)) as [t0 w1].
  pose proof (http_loop_frame env data (Z.to_nat n)
                (mk_St w1 (http_calls st) (stdout st))) as Hout.
  destruct (for_range (Z.to_nat n) (http_iteration env data)
              (mk_St w1 (http_calls st) (stdout st))) as [[u|e] s2];
    simpl in Hout; [|intros Habs; discriminate Habs].
  destruct (time_time env (world s2)) as [t1 w3]. cbv zeta.
  destruct (float_is_zero (float_sub t1 t0)) eqn:Hzero; [intros Habs; discriminate Habs|].
  intros Hrun. injection Hrun as <- <-.
  split; [exact Hzero|]. unfold add_line. simpl. rewrite Hout. reflexivity.
Qed.

(** The two reports a completed benchmark can print: the network sample
    after the notice that FFI is not available, or both samples and the
    speedup [http_time / ffi_time]. *)
Lemma benchmark_report env n data st st' :
  benchmark env n data st = (Ok tt, st') ->
  (exists t2,
     float_is_zero t2 = false
     /\ stdout st' =
        stdout st ++ [FFI_not_available;
                      HTTP_line t2 (float_div (float_of_int n) t2)])
  \/ (exists t1 t2,
        float_is_zero t1 = false /\ float_is_zero t2 = false
        /\ stdout st' =
           stdout st ++ [FFI_line t1 (float_div (float_of_int n) t1);
                         HTTP_line t2 (float_div (float_of_int n) t2);
                         Speedup_line (float_div t2 t1)]).
Proof.
  unfold benchmark, bind.
  destruct (ffi_benchmark env n data st) as [[r|e] s1] eqn:Hffi;
    [|intros Habs; discriminate Habs].
  apply ffi_benchmark_report in Hffi.
  destruct (http_benchmark env n data s1) as [[t2|e] s2] eqn:Hhttp;
    [|intros Habs; discriminate Habs].
  apply http_benchmark_report in Hhttp. destruct Hhttp as [Hz2 Hout2].
  destruct r as [t1|]; simpl.
  - destruct Hffi as [Hz1 Hout1]. unfold truthy. rewrite Hz1. simpl.
    unfold bind, of_outcome, truediv, print. rewrite Hz1.
    intros Hrun. injection Hrun as <-. right. exists t1, t2.
    split; [exact Hz1|]. split; [exact Hz2|].
    unfold add_line. simpl. rewrite Hout2, Hout1, <- !app_assoc. reflexivity.
  - unfold ret. intros Hrun. injection Hrun as <-. left. exists t2.
    split; [exact Hz2|]. rewrite Hout2, Hffi, <- app_assoc. reflexivity.
Qed.

(** C6, the code at the failing input.  When [dist_agent_lang] could not be
    imported, the first [dist_agent_lang.hash_data] of the FFI loop raises
    [NameError]; [except ImportError] does not catch it and
    [benchmark_ffi_vs_http] ends there: nothing is printed and no request
    is made, so the report has no network sample. *)
Theorem benchmark_unbound_module env st :
  dist_agent_lang env = None ->
  benchmark_ffi_vs_http env st =
    (Raise NameError,
     mk_St (snd (time_time env (world st))) (http_calls st) (stdout st)).
Proof.
  intros Hmodule. unfold benchmark_ffi_vs_http, benchmark, bind.
  rewrite ffi_benchmark_unfold.
  destruct (time_time env (world st)) as [t0 w1]. simpl snd.
  rewrite (for_range_first_raise _ _ _ NameError
             (mk_St w1 (http_calls st) (stdout st))).
  - reflexivity.
  - lia.
  - unfold ffi_iteration, bind, global_name, raise. rewrite Hmodule.
    reflexivity.
Qed.

(** C8, amended.  Each sample's throughput is
    [iterations / elapsed_seconds]: when the elapsed time of a completed
    loop is not zero, the line printed for it carries that quotient; when
    it is zero, the division is not guarded and [ZeroDivisionError] leaves
    the benchmark, from the FFI block as from the HTTP block. *)
Theorem throughput_division env n data st t0 w1 s2 t1 w3 :
  time_time env (world st) = (t0, w1) ->
  time_time env (world s2) = (t1, w3) ->
  let elapsed := float_sub t1 t0 in
  let s3 := mk_St w3 (http_calls s2) (stdout s2) in
  (for_range (Z.to_nat n) (http_iteration env data)
     (mk_St w1 (http_calls st) (stdout st)) = (Ok tt, s2) ->
   http_benchmark env n data st =
     if float_is_zero elapsed
     then (Raise ZeroDivisionError, s3)
     else (Ok elapsed,
           add_line s3
             (HTTP_line elapsed (float_div (float_of_int n) elapsed))))
  /\ (for_range (Z.to_nat n) (ffi_iteration env data)
        (mk_St w1 (http_calls st) (stdout st)) = (Ok tt, s2) ->
      (ffi_benchmark env n data st =
         if float_is_zero elapsed
         then (Raise ZeroDivisionError, s3)
         else (Ok (Some elapsed),
               add_line s3
                 (FFI_line elapsed (float_div (float_of_int n) elapsed))))
      /\ (float_is_zero elapsed = true ->
          benchmark env n data st = (Raise ZeroDivisionError, s3))).
Proof.
  intros Hstart Hstop elapsed s3. split.
  - intros Hloop. rewrite http_benchmark_unfold, Hstart, Hloop, Hstop.
    reflexivity.
  - intros Hloop.
    assert (Hffi : ffi_benchmark env n data st =
                   if float_is_zero elapsed
                   then (Raise ZeroDivisionError, s3)
                   else (Ok (Some elapsed),
                         add_line s3
                           (FFI_line elapsed
                              (float_div (float_of_int n) elapsed)))).
    { rewrite ffi_benchmark_unfold, Hstart, Hloop, Hstop. reflexivity. }
    split; [exact Hffi|].
    intros Hzero. unfold benchmark, bind. rewrite Hffi, Hzero. reflexivity.
Qed.

(** C9, amended.  A failing iteration ends the whole benchmark, with one
    exception.  If an iteration of the FFI loop raises an [ImportError],
    the FFI measurement is dropped, "FFI not available" is printed and the
    HTTP measurement runs.  If it raises any other exception, the benchmark
    ends with that exception: nothing is printed and no request is made.
    If an iteration of the HTTP loop raises, the benchmark ends with that
    exception after whatever the FFI block printed, and no speedup is
    printed. *)
Theorem benchmark_fail_fast env n data st t0 w1 :
  time_time env (world st) = (t0, w1) ->
  (forall e s2,
     for_range (Z.to_nat n) (ffi_iteration env data)
       (mk_St w1 (http_calls st) (stdout st)) = (Raise e, s2) ->
     (isinstance e "ImportError" = true ->
      benchmark env n data st =
        (http_benchmark env n data ;; ret tt)
          (add_line s2 FFI_not_available))
     /\ (isinstance e "ImportError" = false ->
         benchmark env n data st = (Raise e, s2)
         /\ http_calls s2 = http_calls st
         /\ stdout s2 = stdout st))
  /\ (forall ffi_time s1 t2 w2 e s3,
        ffi_benchmark env n data st = (Ok ffi_time, s1) ->
        time_time env (world s1) = (t2, w2) ->
        for_range (Z.to_nat n) (http_iteration env data)
          (mk_St w2 (http_calls s1) (stdout s1)) = (Raise e, s3) ->
        benchmark env n data st = (Raise e, s3)
        /\ stdout s3 = stdout s1).
Proof.
  intros Hstart. split.
  - intros e s2 Hloop.
    pose proof (ffi_loop_frame env data (Z.to_nat n)
                  (mk_St w1 (http_calls st) (stdout st))) as [Hcalls Hout].
    rewrite Hloop in Hcalls, Hout. simpl in Hcalls, Hout.
    unfold benchmark, bind.
    rewrite ffi_benchmark_unfold, Hstart, Hloop. split.
    + intros Hcaught. rewrite Hcaught. simpl.
      destruct (http_benchmark env n data (add_line s2 FFI_not_available))
        as [[t|e'] s]; reflexivity.
    + intros Hother. rewrite Hother.
      split; [reflexivity|]. split; assumption.
  - intros ffi_time s1 t2 w2 e s3 Hffi Hstart2 Hloop.
    pose proof (http_loop_frame env data (Z.to_nat n)
                  (mk_St w2 (http_calls s1) (stdout s1))) as Hout.
    rewrite Hloop in Hout. simpl in Hout.
    unfold benchmark, bind.
    rewrite Hffi, http_benchmark_unfold, Hstart2, Hloop.
    split; [reflexivity | exact Hout].
Qed.

End Benchmark.

(** ** The harness on the sample environments *)

Section Samples.
Context {F : Type} `{PyFloat F}.
Variables (status : Z) (body : string) (decoded : value).
Hypothesis body_decodes : PyJson.loads body = Ok decoded.

Let request (data : string) : string * value :=
  (api_url "CryptoService" "hash_data", VList [VStr data]).

(** Against a sample server the HTTP loop succeeds; it leaves the clock
    alone and issues one request per iteration. *)
Lemma sample_http_loop module data k (w : list F) calls out :
  for_range k (http_iteration (sample_env module status body) data)
    (mk_St w calls out)
  = (Ok tt, mk_St w (calls ++ repeat (request data) k) out).
Proof.
  revert calls. induction k as [|k IH]; intros calls.
  - simpl. rewrite app_nil_r. reflexivity.
  - simpl for_range. unfold bind at 1.
    assert (Hstep :
      http_iteration (sample_env module status body) data (mk_St w calls out)
      = (Ok decoded, mk_St w (calls ++ [request data]) out)).
    { unfold http_iteration, call_via_http, requests_post, response_json,
        record_http_call, of_outcome, bind, extern. simpl.
      rewrite body_decodes. reflexivity. }
    rewrite Hstep, IH, <- app_assoc. reflexivity.
Qed.

(** With a [hash_data] that answers, the FFI loop succeeds and changes
    nothing. *)
Lemma sample_ffi_loop called hashed data k (w : list F) calls out :
  for_range k
    (ffi_iteration
       (sample_env (Some (native_module called (Ok hashed))) status body) data)
    (mk_St w calls out)
  = (Ok tt, mk_St w calls out).
Proof.
  induction k as [|k IH]; [reflexivity|].
  simpl for_range. unfold bind at 1.
  change (ffi_iteration _ data (mk_St w calls out))
    with (Ok hashed, mk_St w calls out).
  exact IH.
Qed.

(** With a [hash_data] that raises, the FFI loop raises at once. *)
Lemma sample_ffi_loop_raise called e data k (w : list F) calls out :
  k <> O ->
  for_range k
    (ffi_iteration
       (sample_env (Some (native_module called (Raise e))) status body) data)
    (mk_St w calls out)
  = (Raise e, mk_St w calls out).
Proof.
  intros Hk. apply for_range_first_raise; [exact Hk | reflexivity].
Qed.

(** Lines 86-90 against a sample server. *)
Lemma sample_http_benchmark module n data t0 t1 (rest : list F) calls out :
  http_benchmark (sample_env module status body) n data
    (mk_St (t0 :: t1 :: rest) calls out)
  = let http_time := float_sub t1 t0 in
    let calls' := calls ++ repeat (request data) (Z.to_nat n) in
    if float_is_zero http_time
    then (Raise ZeroDivisionError, mk_St rest calls' out)
    else (Ok http_time,
          mk_St rest calls'
            (out ++ [HTTP_line http_time
                       (float_div (float_of_int n) http_time)])).
Proof.
  rewrite http_benchmark_unfold. simpl time_time. simpl world.
  cbv beta iota. rewrite sample_http_loop. reflexivity.
Qed.

(** Lines 75-83 with a [hash_data] that answers. *)
Lemma sample_ffi_benchmark called hashed n data t0 t1 (rest : list F)
    calls out :
  ffi_benchmark
    (sample_env (Some (native_module called (Ok hashed))) status body) n data
    (mk_St (t0 :: t1 :: rest) calls out)
  = let ffi_time := float_sub t1 t0 in
    if float_is_zero ffi_time
    then (Raise ZeroDivisionError, mk_St rest calls out)
    else (Ok (Some ffi_time),
          mk_St rest calls
            (out ++ [FFI_line ffi_time
                       (float_div (float_of_int n) ffi_time)])).
Proof.
  rewrite ffi_benchmark_unfold. simpl time_time. simpl world.
  cbv beta iota. rewrite sample_ffi_loop. reflexivity.
Qed.

(** The whole benchmark when both strategies answer and both elapsed times
    are not zero. *)
Lemma sample_benchmark called hashed n data t0 t1 t2 t3 (rest : list F) :
  float_is_zero (float_sub t1 t0) = false ->
  float_is_zero (float_sub t3 t2) = false ->
  benchmark (sample_env (Some (native_module called (Ok hashed))) status body)
    n data (mk_St (t0 :: t1 :: t2 :: t3 :: rest) [] [])
  = (Ok tt,
     mk_St rest (repeat (request data) (Z.to_nat n))
       [FFI_line (float_sub t1 t0)
          (float_div (float_of_int n) (float_sub t1 t0));
        HTTP_line (float_sub t3 t2)
          (float_div (float_of_int n) (float_sub t3 t2));
        Speedup_line (float_div (float_sub t3 t2) (float_sub t1 t0))]).
Proof.
  intros Hz1 Hz3. unfold benchmark, bind.
  rewrite sample_ffi_benchmark. cbv zeta. rewrite Hz1.
  rewrite sample_http_benchmark. cbv zeta. rewrite Hz3.
  unfold report_speedup, truthy. rewrite Hz1. simpl.
  unfold bind, of_outcome, truediv, print, add_line. rewrite Hz1.
  reflexivity.
Qed.

End Samples.

Lemma loads_over_http :
  PyJson.loads body_over_http = Ok (VList [VStr "over http"]).
Proof. vm_compute. reflexivity. Qed.

Lemma benchmark_unbound_module_witness :
  dist_agent_lang env_not_installed = None
  /\ benchmark_ffi_vs_http env_not_installed
       (start [1; 2; 3; 4]%float)
     = (Raise NameError, start [2; 3; 4]%float).
Proof.
  split; [reflexivity|].
  exact (benchmark_unbound_module env_not_installed
           (start [1; 2; 3; 4]%float) eq_refl).
Defined.

(** C8 as the specification states it fails: the clock reads the same
    value before and after the FFI loop, and [benchmark_ffi_vs_http] ends
    in [ZeroDivisionError]. *)
Lemma zero_elapsed_raises :
  ~ throughput_is_guarded env_native_ok (start [5; 5; 6; 7]%float).
Proof.
  intros Hspec.
  assert (Hrun : benchmark_ffi_vs_http env_native_ok
                   (start [5; 5; 6; 7]%float)
                 = (Raise ZeroDivisionError, start [6; 7]%float)).
  { unfold benchmark_ffi_vs_http, benchmark, bind, start, env_native_ok.
    rewrite (sample_ffi_benchmark 200 body_over_http). reflexivity. }
  specialize (Hspec ZeroDivisionError). rewrite Hrun in Hspec.
  specialize (Hspec eq_refl). discriminate Hspec.
Qed.

Lemma throughput_division_witness :
  time_time env_native_ok [5; 5; 6; 7]%float = (5, [5; 6; 7])%float
  /\ time_time env_native_ok [5; 6; 7]%float = (5, [6; 7])%float
  /\ benchmark env_native_ok 10000 test_data (start [5; 5; 6; 7]%float)
     = (Raise ZeroDivisionError, start [6; 7]%float).
Proof.
  split; [reflexivity|]. split; [reflexivity|].
  exact (proj2 (proj2 (throughput_division env_native_ok 10000 test_data
                         (start [5; 5; 6; 7]%float) 5%float [5; 6; 7]%float
                         (start [5; 6; 7]%float) 5%float [6; 7]%float
                         eq_refl eq_refl)
                  (sample_ffi_loop 200 body_over_http (Ok (VStr "native"))
                     VNone test_data (Z.to_nat 10000) [5; 6; 7]%float [] []))
           eq_refl).
Defined.

Lemma hash_fails_ffi_benchmark :
  ffi_benchmark env_hash_fails 10000 test_data (start [0; 1; 8]%float)
  = (Raise RuntimeError, start [1; 8]%float).
Proof.
  rewrite ffi_benchmark_unfold. simpl time_time. simpl world.
  cbv beta iota. unfold env_hash_fails.
  rewrite (sample_ffi_loop_raise 200 body_over_http); [reflexivity | lia].
Qed.

(** C9 as the specification states it fails: [hash_data] raises
    [RuntimeError], the HTTP measurement on its own would succeed, and the
    benchmark ends without a network sample. *)
Lemma native_failure_stops_benchmark :
  ~ failures_are_isolated env_hash_fails (start [0; 1; 8]%float).
Proof.
  intros Hspec.
  assert (Hhttp : http_benchmark env_hash_fails 10000 test_data
                    (start [1; 8]%float)
                  = (Ok 7%float,
                     mk_St []
                       (repeat (api_url "CryptoService" "hash_data",
                                VList [VStr test_data]) (Z.to_nat 10000))
                       [HTTP_line 7%float
                          (PrimFloat.div 10000 7)%float])).
  { unfold env_hash_fails, start.
    rewrite (sample_http_benchmark 200 body_over_http _ loads_over_http).
    reflexivity. }
  specialize (Hspec _ _ _ _ hash_fails_ffi_benchmark Hhttp).
  unfold benchmark_ffi_vs_http, benchmark, bind in Hspec.
  fold test_data in Hspec. rewrite hash_fails_ffi_benchmark in Hspec.
  destruct Hspec as (t & ops & Hin). exact Hin.
Qed.

Lemma benchmark_fail_fast_witness :
  time_time env_hash_fails [0; 1; 8]%float = (0, [1; 8])%float
  /\ benchmark env_hash_fails 10000 test_data (start [0; 1; 8]%float)
     = (Raise RuntimeError, start [1; 8]%float)
  /\ http_calls (start [1; 8]%float) = []
  /\ stdout (start [1; 8]%float) = [].
Proof.
  split; [reflexivity|].
  exact (proj2 (proj1 (benchmark_fail_fast env_hash_fails 10000 test_data
                         (start [0; 1; 8]%float) 0%float [1; 8]%float
                         eq_refl)
                  RuntimeError (start [1; 8]%float)
                  (sample_ffi_loop_raise 200 body_over_http (Ok VNone)
                     RuntimeError test_data (Z.to_nat 10000) [1; 8]%float
                     [] [] ltac:(lia)))
           eq_refl).
Defined.

(** ** Further properties of the routing functions *)

Section RoutingCoverage.
Context {W F : Type} `{PyFloat F}.
Implicit Types (env : Env W F) (st : St W F) (a : value).
Implicit Types (s f : string) (e : exn).

(** X1.  A call of [call_service] calls [requests.post] at most once,
    always with the URL of the two names and with the arguments of the
    call as [json=], and prints nothing; with [prefer_ffi=False] it calls
    it exactly once.  [http_calls] counts the calls of [requests.post]:
    whether a request then leaves depends on the serialiser (X3). *)
Theorem call_service_requests env s f a prefer_ffi st :
  (http_calls (snd (call_service env s f a prefer_ffi st)) = http_calls st
   \/ http_calls (snd (call_service env s f a prefer_ffi st))
      = http_calls st ++ [(api_url s f, a)])
  /\ stdout (snd (call_service env s f a prefer_ffi st)) = stdout st
  /\ (prefer_ffi = false ->
      http_calls (snd (call_service env s f a prefer_ffi st))
      = http_calls st ++ [(api_url s f, a)]).
Proof.
  destruct prefer_ffi.
  - rewrite call_service_ffi_path.
    pose proof (ffi_call_frame env s f a st) as [Hc Ho].
    destruct (ffi_call env s f a st) as [[v|e] st1]; simpl in Hc, Ho.
    + simpl. split; [left; exact Hc|]. split; [exact Ho | discriminate].
    + destruct (ImportError_or_AttributeError e).
      * pose proof (call_via_http_frame env s f a st1) as [Hc' Ho'].
        split; [right; congruence|]. split; [congruence | discriminate].
      * simpl. split; [left; exact Hc|]. split; [exact Ho | discriminate].
  - rewrite call_service_http_path.
    pose proof (call_via_http_frame env s f a st) as [Hc Ho].
    split; [right; exact Hc|]. split; [exact Ho | intros _; exact Hc].
Qed.

(** X2.  When the native path raises an exception that the [except]
    clause catches and the network path then raises too, the caller gets
    the exception of the network path; the native one is lost. *)
Theorem fallback_failure_hides_native_error env s f a st e st1 e' st2 :
  ffi_call env s f a st = (Raise e, st1) ->
  ImportError_or_AttributeError e = true ->
  call_via_http env s f a st1 = (Raise e', st2) ->
  call_service env s f a true st = (Raise e', st2).
Proof.
  intros Hffi Hcaught Hhttp.
  rewrite call_service_ffi_path, Hffi, Hcaught. exact Hhttp.
Qed.

(** X3.  The two ways [call_via_http] fails before a response is decoded.
    If the arguments cannot be serialised, the exception of the serialiser
    is raised and the server is not contacted: the world is as before.  If
    [requests.post] raises, that exception is raised: there is no second
    attempt and nothing is decoded. *)
Theorem call_via_http_errors env s f a st :
  (forall e,
     request_body env a = Raise e ->
     call_via_http env s f a st =
       (Raise e,
        mk_St (world st) (http_calls st ++ [(api_url s f, a)]) (stdout st)))
  /\ (forall body e w,
        request_body env a = Ok body ->
        requests_send env (api_url s f) body (world st) = (Raise e, w) ->
        call_via_http env s f a st =
          (Raise e,
           mk_St w (http_calls st ++ [(api_url s f, a)]) (stdout st))).
Proof.
  split.
  - intros e Hbody.
    unfold call_via_http, requests_post, record_http_call, of_outcome, bind;
      simpl.
    rewrite Hbody. reflexivity.
  - intros body e w Hbody Hsend.
    unfold call_via_http, requests_post, record_http_call, of_outcome, bind,
      extern; simpl.
    rewrite Hbody. simpl. rewrite Hsend. reflexivity.
Qed.

End RoutingCoverage.

Lemma fallback_failure_hides_native_error_witness :
  ffi_call env_both_fail "CryptoService" "batch_hash" sample_args (start [])
    = (Raise AttributeError, start [])
  /\ ImportError_or_AttributeError AttributeError = true
  /\ call_service env_both_fail "CryptoService" "batch_hash" sample_args true
       (start [])
     = (Raise JSONDecodeError,
        mk_St [] [(api_url "CryptoService" "batch_hash", sample_args)] []).
Proof.
  split; [reflexivity|]. split; [reflexivity|].
  exact (fallback_failure_hides_native_error env_both_fail "CryptoService"
           "batch_hash" sample_args (start []) AttributeError (start [])
           JSONDecodeError
           (mk_St [] [(api_url "CryptoService" "batch_hash", sample_args)] [])
           eq_refl eq_refl eq_refl).
Defined.

Lemma call_via_http_errors_witness :
  request_body env_not_installed (VList [VBytes "raw"]) = Raise TypeError
  /\ call_via_http env_not_installed "CryptoService" "hash_data"
       (VList [VBytes "raw"]) (start [])
     = (Raise TypeError,
        mk_St [] [(api_url "CryptoService" "hash_data",
                   VList [VBytes "raw"])] []).
Proof.
  split; [reflexivity|].
  exact (proj1 (call_via_http_errors env_not_installed "CryptoService"
                  "hash_data" (VList [VBytes "raw"]) (start []))
           TypeError eq_refl).
Defined.

(** ** The URL of a service function *)

Lemma slash_split (s s' f f' : string) :
  no_slash s = true ->
  no_slash s' = true ->
  (s ++ "/" ++ f)%string = (s' ++ "/" ++ f')%string ->
  s = s' /\ f = f'.
Proof.
  revert s'. induction s as [|c s IH]; intros s' Hs Hs' Heq.
  - destruct s' as [|c' s']; simpl in Heq.
    + injection Heq as ->. split; reflexivity.
    + injection Heq as <- _. simpl in Hs'. discriminate Hs'.
  - destruct s' as [|c' s']; simpl in Heq.
    + injection Heq as -> _. simpl in Hs. discriminate Hs.
    + injection Heq as -> Heq. simpl in Hs, Hs'.
      apply andb_prop in Hs as [_ Hs]. apply andb_prop in Hs' as [_ Hs'].
      destruct (IH s' Hs Hs' Heq) as [-> ->]. split; reflexivity.
Qed.

(** X4.  [api_url] does not escape the names it puts in the path: a slash
    in a name moves the border between the service and the function, so
    two different pairs of names are sent to the same URL. *)
Theorem api_url_slash_collision (a b c : string) :
  api_url (a ++ "/" ++ b) c = api_url a (b ++ "/" ++ c).
Proof.
  unfold api_url. f_equal.
  induction a as [|x a IH]; [reflexivity|].
  simpl. f_equal. exact IH.
Qed.

(** X5.  For service names without a slash the URL determines the pair of
    names: two calls with the same URL have the same service and the same
    function. *)
Theorem api_url_injective (s f s' f' : string) :
  no_slash s = true ->
  no_slash s' = true ->
  api_url s f = api_url s' f' ->
  s = s' /\ f = f'.
Proof.
  intros Hs Hs' Heq. unfold api_url in Heq. simpl in Heq.
  repeat (injection Heq as Heq).
  exact (slash_split s s' f f' Hs Hs' Heq).
Qed.

Lemma api_url_injective_witness :
  no_slash "CryptoService" = true
  /\ api_url "CryptoService" "hash_data" = api_url "CryptoService" "hash_data"
  /\ "CryptoService" = "CryptoService" /\ "hash_data" = "hash_data".
Proof.
  split; [reflexivity|]. split; [reflexivity|].
  exact (api_url_injective "CryptoService" "hash_data" "CryptoService"
           "hash_data" eq_refl eq_refl eq_refl).
Defined.

(** ** Further properties of the timing harness *)

Section BenchmarkCoverage.
Context {W F : Type} `{PyFloat F}.
Implicit Types (env : Env W F) (st : St W F) (data : string) (n : Z).

(** The requests of the HTTP loop: one per iteration started, all alike. *)
Lemma http_loop_calls env data k st :
  exists j,
    (j <= k)%nat
    /\ http_calls (snd (for_range k (http_iteration env data) st))
       = http_calls st
         ++ repeat (api_url "CryptoService" "hash_data", VList [VStr data]) j
    /\ (fst (for_range k (http_iteration env data) st) = Ok tt -> j = k).
Proof.
  revert st. induction k as [|k IH]; intros st.
  - exists O. simpl. rewrite app_nil_r. repeat split. lia.
  - simpl for_range. unfold bind.
    pose proof (call_via_http_frame env "CryptoService" "hash_data"
                  (VList [VStr (decode data)]) st) as [Hc _].
    fold (http_iteration env data) in Hc.
    destruct (http_iteration env data st) as [[v|e] st1]; simpl in Hc.
    + destruct (IH st1) as (j & Hj & Hcalls & Hdone).
      exists (S j). split; [lia|]. split.
      * rewrite Hcalls, Hc, <- app_assoc. reflexivity.
      * intros Hok. rewrite (Hdone Hok). reflexivity.
    + exists 1%nat. simpl. split; [lia|]. split; [exact Hc|].
      intros Habs. discriminate Habs.
Qed.

(** Lines 75-83 make no request. *)
Lemma ffi_benchmark_calls env n data st :
  http_calls (snd (ffi_benchmark env n data st)) = http_calls st.
Proof.
  rewrite ffi_benchmark_unfold.
  destruct (time_time env (world st)) as [t0 w1].
  pose proof (ffi_loop_frame env data (Z.to_nat n)
                (mk_St w1 (http_calls st) (stdout st))) as [Hc _].
  destruct (for_range (Z.to_nat n) (ffi_iteration env data)
              (mk_St w1 (http_calls st) (stdout st))) as [[u|e] s2];
    simpl in Hc.
  - destruct (time_time env (world s2)) as [t1 w3]. cbv zeta.
    destruct (float_is_zero (float_sub t1 t0)); exact Hc.
  - destruct (isinstance e "ImportError"); exact Hc.
Qed.

(** A [try] statement of lines 75-83 that raises has printed nothing. *)
Lemma ffi_benchmark_raise_stdout env n data st e s1 :
  ffi_benchmark env n data st = (Raise e, s1) -> stdout s1 = stdout st.
Proof.
  rewrite ffi_benchmark_unfold.
  destruct (time_time env (world st)) as [t0 w1].
  pose proof (ffi_loop_frame env data (Z.to_nat n)
                (mk_St w1 (http_calls st) (stdout st))) as [_ Ho].
  destruct (for_range (Z.to_nat n) (ffi_iteration env data)
              (mk_St w1 (http_calls st) (stdout st))) as [[u|e0] s2];
    simpl in Ho.
  - destruct (time_time env (world s2)) as [t1 w3]. cbv zeta.
    destruct (float_is_zero (float_sub t1 t0)); intros Hrun;
      [|discriminate Hrun].
    injection Hrun as _ <-. exact Ho.
  - destruct (isinstance e0 "ImportError"); intros Hrun;
      [discriminate Hrun|].
    injection Hrun as _ <-. exact Ho.
Qed.

(** Lines 86-90 that raise have printed nothing. *)
Lemma http_benchmark_raise_stdout env n data st e s1 :
  http_benchmark env n data st = (Raise e, s1) -> stdout s1 = stdout st.
Proof.
  rewrite http_benchmark_unfold.
  destruct (time_time env (world st)) as [t0 w1].
  pose proof (http_loop_frame env data (Z.to_nat n)
                (mk_St w1 (http_calls st) (stdout st))) as Ho.
  destruct (for_range (Z.to_nat n) (http_iteration env data)
              (mk_St w1 (http_calls st) (stdout st))) as [[u|e0] s2];
    simpl in Ho.
  - destruct (time_time env (world s2)) as [t1 w3]. cbv zeta.
    destruct (float_is_zero (float_sub t1 t0)); intros Hrun;
      [|discriminate Hrun].
    injection Hrun as _ <-. exact Ho.
  - intros Hrun. injection Hrun as _ <-. exact Ho.
Qed.

(** The requests of lines 86-90. *)
Lemma http_benchmark_calls env n data st :
  exists j,
    (j <= Z.to_nat n)%nat
    /\ http_calls (snd (http_benchmark env n data st))
       = http_calls st
         ++ repeat (api_url "CryptoService" "hash_data", VList [VStr data]) j
    /\ (forall t, fst (http_benchmark env n data st) = Ok t -> j = Z.to_nat n).
Proof.
  rewrite http_benchmark_unfold.
  destruct (time_time env (world st)) as [t0 w1].
  destruct (http_loop_calls env data (Z.to_nat n)
              (mk_St w1 (http_calls st) (stdout st)))
    as (j & Hj & Hcalls & Hdone).
  exists j. split; [exact Hj|].
  destruct (for_range (Z.to_nat n) (http_iteration env data)
              (mk_St w1 (http_calls st) (stdout st))) as [[[]|e] s2];
    simpl in Hcalls, Hdone.
  - destruct (time_time env (world s2)) as [t1 w3]. cbv zeta.
    destruct (float_is_zero (float_sub t1 t0)); simpl;
      (split; [exact Hcalls | intros t _; exact (Hdone eq_refl)]).
  - simpl. split; [exact Hcalls|]. intros t Habs. discriminate Habs.
Qed.

(** Lines 92-94 make no request. *)
Lemma report_speedup_calls (ffi_time : option F) (http_time : F) st :
  http_calls (snd (report_speedup ffi_time http_time st)) = http_calls st.
Proof.
  unfold report_speedup, ret.
  destruct ffi_time as [t|]; [|reflexivity].
  destruct (truthy t); [|reflexivity].
  unfold bind, of_outcome, print, truediv.
  destruct (float_is_zero t); reflexivity.
Qed.

(** X6.  [benchmark_ffi_vs_http] makes at most 10000 requests, all of them
    to [http://localhost:3000/api/CryptoService/hash_data] with the decoded
    payload as the only argument; a run that completes makes exactly
    10000.  The FFI loop makes none. *)
Theorem benchmark_requests env st :
  exists j,
    (j <= Z.to_nat 10000)%nat
    /\ http_calls (snd (benchmark_ffi_vs_http env st))
       = http_calls st
         ++ repeat (api_url "CryptoService" "hash_data",
                    VList [VStr test_data]) j
    /\ (fst (benchmark_ffi_vs_http env st) = Ok tt -> j = Z.to_nat 10000).
Proof.
  unfold benchmark_ffi_vs_http, benchmark, bind. fold test_data.
  pose proof (ffi_benchmark_calls env 10000 test_data st) as Hffi.
  destruct (ffi_benchmark env 10000 test_data st) as [[r|e] s1];
    simpl in Hffi.
  - destruct (http_benchmark_calls env 10000 test_data s1)
      as (j & Hj & Hcalls & Hdone).
    exists j. split; [exact Hj|].
    destruct (http_benchmark env 10000 test_data s1) as [[t2|e] s2];
      simpl in Hcalls, Hdone.
    + rewrite report_speedup_calls, Hcalls, Hffi.
      split; [reflexivity|]. intros _. exact (Hdone t2 eq_refl).
    + simpl. rewrite Hcalls, Hffi. split; [reflexivity|].
      intros Habs. discriminate Habs.
  - exists O. simpl. rewrite app_nil_r. split; [lia|].
    split; [exact Hffi|]. intros Habs. discriminate Habs.
Qed.

(** X7.  A run of [benchmark_ffi_vs_http] that completes has printed one
    of two reports: "FFI not available" and the HTTP sample, or the FFI
    sample, the HTTP sample and the speedup.  Each throughput is
    [10000 / elapsed] for an elapsed time that is not zero, the speedup is
    [http_time / ffi_time], and it is printed whenever the FFI sample is:
    the test [if ffi_time:] never skips it. *)
Theorem completed_benchmark_output env st st' :
  benchmark_ffi_vs_http env st = (Ok tt, st') ->
  (exists t2,
     float_is_zero t2 = false
     /\ stdout st' =
        stdout st ++ [FFI_not_available;
                      HTTP_line t2 (float_div (float_of_int 10000) t2)])
  \/ (exists t1 t2,
        float_is_zero t1 = false /\ float_is_zero t2 = false
        /\ stdout st' =
           stdout st ++ [FFI_line t1 (float_div (float_of_int 10000) t1);
                         HTTP_line t2 (float_div (float_of_int 10000) t2);
                         Speedup_line (float_div t2 t1)]).
Proof.
  intros Hrun. unfold benchmark_ffi_vs_http in Hrun.
  exact (benchmark_report env _ _ st st' Hrun).
Qed.

(** X8.  A run of [benchmark_ffi_vs_http] that raises has printed at most
    one line, the FFI sample or "FFI not available": once the HTTP sample
    is printed the run completes. *)
Theorem failed_benchmark_output env st e st' :
  benchmark_ffi_vs_http env st = (Raise e, st') ->
  stdout st' = stdout st
  \/ stdout st' = stdout st ++ [FFI_not_available]
  \/ (exists t1,
        float_is_zero t1 = false
        /\ stdout st' =
           stdout st ++ [FFI_line t1 (float_div (float_of_int 10000) t1)]).
Proof.
  unfold benchmark_ffi_vs_http, benchmark, bind.
  destruct (ffi_benchmark env 10000 (bytes_mul "test_data" 1000) st)
    as [[r|e1] s1] eqn:Hffi.
  - pose proof (ffi_benchmark_report _ _ _ _ _ _ Hffi) as Hout1.
    destruct (http_benchmark env 10000 (bytes_mul "test_data" 1000) s1)
      as [[t2|e2] s2] eqn:Hhttp.
    + destruct r as [t1|]; simpl.
      * destruct Hout1 as [Hz1 _]. unfold truthy. rewrite Hz1. simpl.
        unfold bind, of_outcome, truediv, print. rewrite Hz1.
        intros Habs. discriminate Habs.
      * unfold ret. intros Habs. discriminate Habs.
    + intros Hrun. injection Hrun as _ <-.
      apply http_benchmark_raise_stdout in Hhttp. rewrite Hhttp.
      destruct r as [t1|].
      * destruct Hout1 as [Hz1 Hout1]. right. right. exists t1.
        split; assumption.
      * right. left. exact Hout1.
  - intros Hrun. injection Hrun as _ <-. left.
    exact (ffi_benchmark_raise_stdout _ _ _ _ _ _ Hffi).
Qed.

End BenchmarkCoverage.

(** ** The script run as a program *)

Section ProgramCoverage.
Context {W F : Type} `{PyFloat F}.
Implicit Types (env : Env W F) (w : W).
Implicit Types (import : W -> outcome (CryptoModule W) * W).

(** With the global unbound the benchmark stops at line 78. *)
Lemma benchmark_without_binding env (st : St W F) :
  benchmark_ffi_vs_http (with_module env None) st =
    (Raise NameError,
     mk_St (snd (time_time env (world st))) (http_calls st) (stdout st)).
Proof.
  unfold benchmark_ffi_vs_http, benchmark, bind.
  rewrite ffi_benchmark_unfold. simpl time_time.
  destruct (time_time env (world st)) as [t0 w1]. simpl snd.
  rewrite (for_range_first_raise _ _ _ NameError
             (mk_St w1 (http_calls st) (stdout st)));
    [reflexivity | lia | reflexivity].
Qed.

(** X9.  Run as a program where [import dist_agent_lang] raises an
    [ImportError], the script prints "FFI module not available, falling
    back to HTTP" and the banner, and then ends with [NameError] at the
    first iteration of the FFI loop: it makes no request and prints no
    sample. *)
Theorem script_without_module import env w e w1 :
  import w = (Raise e, w1) ->
  isinstance e "ImportError" = true ->
  run_script import env w =
    (Raise NameError,
     ([FFI_module_not_available; Banner],
      mk_St (snd (time_time env w1)) [] [])).
Proof.
  intros Himport Hclass.
  unfold run_script, module_level, console_extern. simpl.
  rewrite Himport, Hclass. simpl.
  rewrite benchmark_without_binding. reflexivity.
Qed.

(** X10.  Any exception that is not an [ImportError], raised by the
    import or by one of the calls of lines 12-38, ends the program while
    the file is loaded: the banner is not printed and the benchmark does
    not run.  The handler of line 40 differs from the one of
    [call_service]: an [AttributeError] is fatal here. *)
Theorem script_fatal_at_load import env w :
  (forall e w1,
     import w = (Raise e, w1) ->
     isinstance e "ImportError" = false ->
     run_script import env w = (Raise e, ([], mk_St w1 [] [])))
  /\ (forall module w1 e c,
        import w = (Ok module, w1) ->
        example_calls module (mk_Console w1 []) = (Raise e, c) ->
        isinstance e "ImportError" = false ->
        run_script import env w =
          (Raise e, (console c, mk_St (console_world c) [] []))
        /\ ~ In Banner (console c)).
Proof.
  split.
  - intros e w1 Himport Hclass.
    unfold run_script, module_level, console_extern. simpl.
    rewrite Himport, Hclass. reflexivity.
  - intros module w1 e c Himport Hcalls Hclass. split.
    + unfold run_script, module_level, console_extern, try_except, bind.
      simpl. rewrite Himport. rewrite Hcalls, Hclass. reflexivity.
    + revert Hcalls.
      unfold example_calls, bind, getattr, ret, raise, console_extern,
        console_print, of_outcome. simpl.
      repeat match goal with
             | |- context [match ?x with _ => _ end] =>
                 match x with
                 | context [match _ with _ => _ end] => fail 1
                 | _ => destruct x eqn:?
                 end
             end;
        simpl; intros Hrun; try discriminate Hrun;
        injection Hrun as _ <-; simpl; intuition discriminate.
Qed.

(** X11.  When the import succeeds and a later call of lines 12-38 raises
    an [ImportError], the handler prints that the module is not available
    although the name is bound: the program goes on to the banner and the
    benchmark runs with the FFI module. *)
Theorem script_late_import_error import env w module w1 e c :
  import w = (Ok module, w1) ->
  example_calls module (mk_Console w1 []) = (Raise e, c) ->
  isinstance e "ImportError" = true ->
  run_script import env w =
    let (r, st) :=
      benchmark_ffi_vs_http (with_module env (Some (native_part module)))
        (mk_St (console_world c) [] []) in
    (r, (console c ++ [FFI_module_not_available; Banner]
           ++ map Benchmark_line (stdout st), st)).
Proof.
  intros Himport Hcalls Hclass.
  unfold run_script, module_level, console_extern, try_except, bind.
  simpl. rewrite Himport. rewrite Hcalls, Hclass. simpl.
  destruct (benchmark_ffi_vs_http
              (with_module env (Some (native_part module)))
              (mk_St (console_world c) [] [])) as [r st].
  rewrite <- app_assoc. reflexivity.
Qed.

End ProgramCoverage.

Lemma completed_benchmark_output_witness :
  exists st',
    benchmark_ffi_vs_http env_native_ok (start [0; 0.5; 1; 8]%float)
      = (Ok tt, st')
    /\ ((exists t2,
           float_is_zero t2 = false
           /\ stdout st' =
              [] ++ [FFI_not_available;
                     HTTP_line t2 (float_div (float_of_int 10000) t2)])
        \/ (exists t1 t2,
              float_is_zero t1 = false /\ float_is_zero t2 = false
              /\ stdout st' =
                 [] ++ [FFI_line t1 (float_div (float_of_int 10000) t1);
                        HTTP_line t2 (float_div (float_of_int 10000) t2);
                        Speedup_line (float_div t2 t1)])).
Proof.
  eexists. split.
  - exact (sample_benchmark (F := float) 200 body_over_http _
             loads_over_http (Ok (VStr "native")) VNone 10000 test_data
             0 0.5 1 8 [] eq_refl eq_refl)%float.
  - exact (completed_benchmark_output env_native_ok
             (start [0; 0.5; 1; 8]%float) _
             (sample_benchmark (F := float) 200 body_over_http _
                loads_over_http (Ok (VStr "native")) VNone 10000 test_data
                0 0.5 1 8 [] eq_refl eq_refl)%float).
Defined.

Lemma hash_fails_benchmark :
  benchmark_ffi_vs_http env_hash_fails (start [0; 1; 8]%float)
  = (Raise RuntimeError, start [1; 8]%float).
Proof.
  unfold benchmark_ffi_vs_http, benchmark, bind. fold test_data.
  rewrite hash_fails_ffi_benchmark. reflexivity.
Qed.

Lemma failed_benchmark_output_witness :
  benchmark_ffi_vs_http env_hash_fails (start [0; 1; 8]%float)
    = (Raise RuntimeError, start [1; 8]%float)
  /\ (stdout (start [1; 8]%float) = stdout (start [0; 1; 8]%float)
      \/ stdout (start [1; 8]%float)
         = stdout (start [0; 1; 8]%float) ++ [FFI_not_available]
      \/ (exists t1,
            float_is_zero t1 = false
            /\ stdout (start [1; 8]%float) =
               stdout (start [0; 1; 8]%float)
                 ++ [FFI_line t1 (float_div (float_of_int 10000) t1)])).
Proof.
  split; [exact hash_fails_benchmark|].
  exact (failed_benchmark_output env_hash_fails (start [0; 1; 8]%float)
           RuntimeError (start [1; 8]%float) hash_fails_benchmark).
Defined.

Lemma script_without_module_witness :
  isinstance ModuleNotFoundError "ImportError" = true
  /\ run_script (import_raises ModuleNotFoundError) env_not_installed
       [1; 2]%float
     = (Raise NameError,
        ([FFI_module_not_available; Banner], mk_St [2]%float [] [])).
Proof.
  split; [reflexivity|].
  exact (script_without_module (import_raises ModuleNotFoundError)
           env_not_installed [1; 2]%float ModuleNotFoundError [1; 2]%float
           eq_refl eq_refl).
Defined.

Lemma script_fatal_at_load_witness :
  example_calls (F := float) module_without_sign (mk_Console [1; 2]%float [])
    = (Raise AttributeError,
       mk_Console [1; 2]%float [Hash_line (VStr "digest")])
  /\ run_script (import_gives module_without_sign) env_not_installed
       [1; 2]%float
     = (Raise AttributeError,
        ([Hash_line (VStr "digest")], mk_St [1; 2]%float [] []))
  /\ ~ In Banner [Hash_line (F := float) (VStr "digest")].
Proof.
  split; [reflexivity|].
  exact (proj2 (script_fatal_at_load (import_gives module_without_sign)
                  env_not_installed [1; 2]%float)
           module_without_sign [1; 2]%float AttributeError
           (mk_Console [1; 2]%float [Hash_line (VStr "digest")])
           eq_refl eq_refl eq_refl).
Defined.

Lemma script_late_import_error_witness :
  example_calls (F := float) (crypto_module (Raise ImportError))
    (mk_Console [0; 0.5; 1; 8]%float [])
    = (Raise ImportError,
       mk_Console [0; 0.5; 1; 8]%float [Hash_line (VStr "digest")])
  /\ fst (run_script (import_gives (crypto_module (Raise ImportError)))
            env_not_installed [0; 0.5; 1; 8]%float) = Ok tt
  /\ fst (snd (run_script (import_gives (crypto_module (Raise ImportError)))
                 env_not_installed [0; 0.5; 1; 8]%float))
     = [Hash_line (VStr "digest"); FFI_module_not_available; Banner;
        Benchmark_line (FFI_line 0.5 20000);
        Benchmark_line (HTTP_line 7 (PrimFloat.div 10000 7));
        Benchmark_line (Speedup_line 14)]%float.
Proof.
  split; [reflexivity|].
  rewrite (script_late_import_error
             (import_gives (crypto_module (Raise ImportError)))
             env_not_installed [0; 0.5; 1; 8]%float
             (crypto_module (Raise ImportError)) [0; 0.5; 1; 8]%float
             ImportError
             (mk_Console [0; 0.5; 1; 8]%float [Hash_line (VStr "digest")])
             eq_refl eq_refl eq_refl).
  change (with_module env_not_installed
            (Some (native_part (crypto_module (Raise ImportError)))))
    with (sample_env (F := float)
            (Some (native_module (Ok (VStr "native")) (Ok (VStr "digest"))))
            200 body_over_http).
  unfold benchmark_ffi_vs_http. fold test_data. simpl console_world.
  pose proof (sample_benchmark (F := float) 200 body_over_http _
                loads_over_http (Ok (VStr "native")) (VStr "digest") 10000
                test_data 0 0.5 1 8 [] eq_refl eq_refl)%float as Hrun.
  rewrite Hrun. split; reflexivity.
Defined.

(** ** The round trip of a list of strings *)

Local Open Scope string_scope.

Lemma string_append_assoc (a b c : string) : ((a ++ b) ++ c = a ++ (b ++ c))%string.
Proof. induction a as [|x a IH]; simpl; [reflexivity | rewrite IH; reflexivity]. Qed.

Lemma scan_escape_char (c : ascii) (tail : string) :
  PyJson.scan_string (PyJson.escape_char c ++ tail)
  = PyJson.prepend c (PyJson.scan_string tail).
Proof.
  destruct c as [[] [] [] [] [] [] [] []]; reflexivity.
Qed.

Lemma scan_escape (s rest : string) :
  PyJson.scan_string (PyJson.escape s ++ String PyJson.dquote rest) = Some (s, rest).
Proof.
  induction s as [|c s IH].
  - reflexivity.
  - simpl PyJson.escape. rewrite string_append_assoc, scan_escape_char, IH. reflexivity.
Qed.

Lemma dumps_strings (l : list string) :
  PyJson.dumps_value (VList (map VStr l)) = Some ("[" ++ join_strings l ++ "]").
Proof.
  simpl.
  match goal with
  | |- match ?f (map VStr l) with _ => _ end = _ =>
      assert (Hitems : f (map VStr l) = Some (join_strings l))
  end.
  { induction l as [|s l IH]; [reflexivity|].
    destruct l as [|s' l']; [reflexivity|].
    change (map VStr (s :: s' :: l')) with (VStr s :: map VStr (s' :: l')).
    cbv beta iota fix. fold (map VStr (s' :: l')).
    rewrite IH. reflexivity. }
  rewrite Hitems. reflexivity.
Qed.

Lemma join_cons (s : string) (l : list string) (rest : string) :
  join_strings (s :: l) ++ rest
  = String PyJson.dquote
      (PyJson.escape s ++ String PyJson.dquote (after_item l ++ rest)).
Proof.
  destruct l as [|s' l']; unfold join_strings; fold join_strings; unfold PyJson.quote, after_item.
  - simpl. rewrite string_append_assoc. reflexivity.
  - simpl. rewrite !string_append_assoc. reflexivity.
Qed.

Lemma scan_value_string (fuel : nat) (src s tail : string) :
  PyJson.skip_ws src
    = String PyJson.dquote (PyJson.escape s ++ String PyJson.dquote tail) ->
  PyJson.scan_value (S fuel) src = Some (VStr s, tail).
Proof.
  intros Hsrc. simpl. rewrite Hsrc.
  change (Ascii.eqb PyJson.dquote PyJson.dquote) with true. cbv iota.
  rewrite scan_escape. reflexivity.
Qed.

Lemma scan_items_strings (l : list string) :
  forall (s : string) (fuel : nat) (src rest : string),
    (S (length l) < fuel)%nat ->
    PyJson.skip_ws src = join_strings (s :: l) ++ String "]" rest ->
    PyJson.scan_items fuel src = Some (map VStr (s :: l), rest).
Proof.
  induction l as [|s' l IH]; intros s fuel src rest Hfuel Hsrc;
    (destruct fuel as [|[|fuel]]; [simpl in Hfuel; lia | simpl in Hfuel; lia |]);
    rewrite join_cons in Hsrc;
    change (PyJson.scan_items (S (S fuel)) src)
      with (match PyJson.scan_value (S fuel) src with
            | Some (v, rest0) =>
                match PyJson.skip_ws rest0 with
                | String "]" rest' => Some ([v], rest')
                | String "," rest' =>
                    match PyJson.scan_items (S fuel) rest' with
                    | Some (l0, rest'') => Some (v :: l0, rest'')
                    | None => None
                    end
                | _ => None
                end
            | None => None
            end);
    rewrite (scan_value_string fuel src s _ Hsrc).
  - reflexivity.
  - unfold after_item.
    change (PyJson.skip_ws ((", " ++ join_strings (s' :: l)) ++ String "]" rest))
      with (String "," (String " " (join_strings (s' :: l) ++ String "]" rest))).
    cbv iota.
    rewrite (IH s' (S fuel) (String " " (join_strings (s' :: l) ++ String "]" rest)) rest).
    + reflexivity.
    + simpl in Hfuel |- *. lia.
    + rewrite join_cons. reflexivity.
Qed.

Lemma string_length_append (a b : string) :
  String.length (a ++ b) = (String.length a + String.length b)%nat.
Proof. induction a as [|x a IH]; simpl; [reflexivity | rewrite IH; reflexivity]. Qed.

Lemma quote_length (s : string) : (2 <= String.length (PyJson.quote s))%nat.
Proof.
  unfold PyJson.quote. simpl. rewrite string_length_append. simpl. lia.
Qed.

Lemma join_length (l : list string) : (length l <= String.length (join_strings l))%nat.
Proof.
  induction l as [|s l IH]; [simpl; lia|].
  pose proof (quote_length s) as Hq.
  destruct l as [|s' l'].
  - simpl. lia.
  - change (join_strings (s :: s' :: l'))
      with (PyJson.quote s ++ ", " ++ join_strings (s' :: l'))%string.
    rewrite !string_length_append.
    change (String.length ", ") with 2%nat.
    change (Datatypes.length (s :: s' :: l'))
      with (S (S (Datatypes.length l'))).
    change (Datatypes.length (s' :: l')) with (S (Datatypes.length l')) in IH.
    lia.
Qed.

Lemma skip_ws_join (s : string) (l : list string) (rest : string) :
  PyJson.skip_ws (join_strings (s :: l) ++ rest) = join_strings (s :: l) ++ rest.
Proof. rewrite join_cons. reflexivity. Qed.

Lemma scan_value_array (fuel : nat) (rest x : string) :
  PyJson.skip_ws rest = String PyJson.dquote x ->
  PyJson.scan_value (S fuel) (String "[" rest)
  = match PyJson.scan_items fuel rest with
    | Some (l, rest') => Some (VList l, rest')
    | None => None
    end.
Proof.
  intros Hrest. simpl. rewrite Hrest. reflexivity.
Qed.

Lemma loads_dumps_strings (l : list string) (body : string) :
  PyJson.dumps (VList (map VStr l)) = Ok body ->
  PyJson.loads body = Ok (VList (map VStr l)).
Proof.
  unfold PyJson.dumps. rewrite dumps_strings. intros Hbody.
  injection Hbody as <-.
  destruct l as [|s l]; [reflexivity|].
  unfold PyJson.loads.
  change ("[" ++ join_strings (s :: l) ++ "]")%string
    with (String "[" (join_strings (s :: l) ++ "]")).
  remember (String.length (String "[" (join_strings (s :: l) ++ "]"))) as n eqn:Hn.
  assert (Hlen : (S (length l) < 2 * n + 1)%nat).
  { subst n.
    change (String.length (String "[" (join_strings (s :: l) ++ "]")))
      with (S (String.length (join_strings (s :: l) ++ "]"))).
    rewrite string_length_append.
    pose proof (join_length (s :: l)) as Hj.
    change (Datatypes.length (s :: l)) with (S (Datatypes.length l)) in Hj.
    lia. }
  replace (2 * n + 2)%nat with (S (2 * n + 1)) by lia.
  rewrite (scan_value_array _ _ _
             (eq_trans (skip_ws_join s l "]") (join_cons s l "]"))).
  rewrite (scan_items_strings l s (2 * n + 1) _ "" Hlen
             (skip_ws_join s l "]")).
  reflexivity.
Qed.

(** X12.  For every list of strings of code points below 256, the strings
    of this model, among them quotes, backslashes, control characters and
    DEL, and for all service and function names, [call_via_http] with the
    codec [PyJson] against a server that echoes the body of the request
    returns the list it was given, after one call of [requests.post]. *)
Theorem echo_round_trip_strings {W F : Type} `{PyFloat F}
    (module : option (NativeModule W)) (clock : W -> F * W)
    (service_name function_name : string) (l : list string) (st : St W F) :
  call_via_http (echo_env module clock) service_name function_name
    (VList (map VStr l)) st =
    (Ok (VList (map VStr l)),
     mk_St (world st)
       (http_calls st
          ++ [(api_url service_name function_name, VList (map VStr l))])
       (stdout st)).
Proof.
  unfold call_via_http, requests_post, response_json, record_http_call,
    of_outcome, bind, extern.
  change (request_body (echo_env module clock) (VList (map VStr l)))
    with (PyJson.dumps (VList (map VStr l))).
  change (json_loads (echo_env module clock)) with PyJson.loads.
  destruct (PyJson.dumps (VList (map VStr l))) as [body|e] eqn:Hbody.
  - simpl. rewrite (loads_dumps_strings l body Hbody). reflexivity.
  - unfold PyJson.dumps in Hbody. rewrite dumps_strings in Hbody.
    discriminate Hbody.
Qed.

(** ** The handlers of the two [try] statements *)

(** X13.  The handler of the benchmark names [ImportError] only.  With a
    module that is installed and has no [hash_data], the first iteration
    raises [AttributeError] and the benchmark ends with it, without a
    request and without a line printed, where [call_service] would have
    gone on to HTTP. *)
Theorem benchmark_missing_hash_data {W F : Type} `{PyFloat F}
    (env : Env W F) (st : St W F) (module : NativeModule W) :
  dist_agent_lang env = Some module ->
  hash_data module = None ->
  benchmark_ffi_vs_http env st =
    (Raise AttributeError,
     mk_St (snd (time_time env (world st))) (http_calls st) (stdout st)).
Proof.
  intros Hmodule Hattr. unfold benchmark_ffi_vs_http, benchmark, bind.
  rewrite ffi_benchmark_unfold.
  destruct (time_time env (world st)) as [t0 w1]. simpl snd.
  rewrite (for_range_first_raise _ _ _ AttributeError
             (mk_St w1 (http_calls st) (stdout st))).
  - reflexivity.
  - lia.
  - unfold ffi_iteration, bind, global_name, getattr, ret, raise.
    rewrite Hmodule, Hattr. reflexivity.
Qed.

Lemma benchmark_missing_hash_data_witness :
  hash_data (W := list float)
    (mk_NativeModule (Some (fun w => (Ok (mk_Runtime None), w))) None) = None
  /\ benchmark_ffi_vs_http env_no_hash_data (start [1; 2; 3; 4]%float)
     = (Raise AttributeError, start [2; 3; 4]%float).
Proof.
  split; [reflexivity|].
  exact (benchmark_missing_hash_data env_no_hash_data
           (start [1; 2; 3; 4]%float) _ eq_refl eq_refl).
Defined.

(** X14.  While the file is loaded the four results are printed in the
    order of the source, each only after the ones before it: what lines
    8-41 have printed is a prefix of the hash, the signature, the verdict
    and the batch result, followed by the notice of line 41 at most once
    and only as the last line. *)
Theorem module_level_console {W F : Type} `{PyFloat F}
    (import : W -> outcome (CryptoModule W) * W) (w : W)
    (r : outcome (option (NativeModule W))) (c : Console W F) :
  module_level import (mk_Console w []) = (r, c) ->
  exists hash_result signature_hex is_valid result k,
    let results :=
      firstn k [Hash_line hash_result; Signature_line signature_hex;
                Valid_line is_valid; Batch_line result] in
    console c = results
    \/ console c = (results ++ [FFI_module_not_available])%list.
Proof.
  unfold module_level, try_except, example_calls, bind, getattr, ret, raise,
    console_extern, console_print, of_outcome. simpl.
  repeat match goal with
         | |- context [match ?x with _ => _ end] =>
             match x with
             | context [match _ with _ => _ end] => fail 1
             | _ => destruct x eqn:?
             end
         | |- context [if ?x then _ else _] =>
             match x with
             | context [match _ with _ => _ end] => fail 1
             | _ => destruct x eqn:?
             end
         end;
    simpl; intros Hrun; injection Hrun as _ <-; simpl;
    try (exists VNone, EmptyString, VNone, VNone, 0%nat; simpl; tauto);
    try (eexists _, EmptyString, VNone, VNone, 1%nat; simpl; tauto);
    try (eexists _, _, VNone, VNone, 2%nat; simpl; tauto);
    try (eexists _, _, _, VNone, 3%nat; simpl; tauto);
    try (eexists _, _, _, _, 4%nat; simpl; tauto).
Qed.

Lemma module_level_console_witness :
  module_level (F := float)
    (import_gives (crypto_module (Ok (VBytes "sig")))) (mk_Console (W := list float) [] [])
  = (Ok (Some (native_module (Ok (VStr "native")) (Ok (VStr "digest")))),
     mk_Console (W := list float) []
       [Hash_line (VStr "digest"); Signature_line "736967";
        Valid_line (VBool true); Batch_line (VStr "native")])
  /\ exists hash_result signature_hex is_valid result k,
       [Hash_line (F := float) (VStr "digest"); Signature_line "736967";
        Valid_line (VBool true); Batch_line (VStr "native")]
       = firstn k [Hash_line hash_result; Signature_line signature_hex;
                   Valid_line is_valid; Batch_line result]
       \/ [Hash_line (F := float) (VStr "digest"); Signature_line "736967";
           Valid_line (VBool true); Batch_line (VStr "native")]
          = (firstn k [Hash_line hash_result; Signature_line signature_hex;
                       Valid_line is_valid; Batch_line result]
               ++ [FFI_module_not_available])%list.
Proof.
  split; [reflexivity|].
  exact (module_level_console (F := float)
           (import_gives (crypto_module (Ok (VBytes "sig")))) ([] : list float)
           (Ok (Some (native_module (Ok (VStr "native"))
                        (Ok (VStr "digest")))))
           (mk_Console (W := list float) []
              [Hash_line (VStr "digest"); Signature_line "736967";
               Valid_line (VBool true); Batch_line (VStr "native")])
           eq_refl).
Defined.
